(** * Portfolio simulation engine: ledger, trade execution, risk controls

    A shallow embedding of [src/services/simulation.ts] (class
    [PortfolioSimulator]) together with the properties of its ledger,
    its trade executor, its risk manager and its momentum signal
    generator.

    Modelling conventions.
    - A JavaScript [number] is an extended rational: a finite rational,
      [+Infinity], [-Infinity] or [NaN].  Finite arithmetic is exact (no
      rounding, no overflow, no negative zero); the special values follow
      IEEE-754 as JavaScript exposes them.  Finite results are kept in
      lowest terms so that equal values are equal terms.
    - A JavaScript value that may be [undefined] is an [option]; it is
      coerced to a number ([undefined] becomes [NaN]) where the source
      does arithmetic on it.
    - [portfolio.assets] is an object whose keys are ticker strings: an
      association list in insertion order without duplicate keys, the order
      [Object.entries] enumerates (tickers are neither integer-like keys nor
      names inherited from [Object.prototype]).
    - [historicalData] and the per-day [prices] are only ever read by key:
      finite maps.
    - [Date.now()] reads a clock: the n-th reading of a run is [now n].
    - [console.log] appends a line to the simulator's console.
    - [fetchHistoricalData] is the external price source: a function that
      either yields the bars of a ticker or fails.  The fetches of a run
      are independent, so the order in which they complete is immaterial.
    - [Math.sqrt] is a parameter of the metrics; nothing proved here
      depends on its values. *)

From Stdlib Require Import QArith Qabs Qround Qreduction.
From stdpp Require Import base option list strings gmap pretty.
From Stdlib Require Import Sorted Lqa.
From Stdlib Require Qcanon.

(** ** JavaScript numbers *)

Module JS.

Inductive number : Type :=
  | Fin (q : Q)
  | PInf
  | NInf
  | NaN.

(** A finite value in lowest terms. *)
Definition fin (q : Q) : number := Fin (Qred q).

Definition ofZ (z : Z) : number := Fin (inject_Z z).
Definition ofNat (n : nat) : number := ofZ (Z.of_nat n).

Definition zero : number := ofZ 0.

Definition Qltb (a b : Q) : bool := negb (Qle_bool b a).

(** Sign of a rational: [Gt] positive, [Lt] negative, [Eq] zero. *)
Definition Qsign (a : Q) : comparison := (a ?= 0)%Q.

Definition add (x y : number) : number :=
  match x, y with
  | NaN, _ | _, NaN => NaN
  | Fin a, Fin b => fin (a + b)%Q
  | PInf, NInf | NInf, PInf => NaN
  | PInf, _ | _, PInf => PInf
  | NInf, _ | _, NInf => NInf
  end.

Definition sub (x y : number) : number :=
  match x, y with
  | NaN, _ | _, NaN => NaN
  | Fin a, Fin b => fin (a - b)%Q
  | PInf, PInf | NInf, NInf => NaN
  | PInf, _ | _, NInf => PInf
  | NInf, _ | _, PInf => NInf
  end.

(** An infinity of the sign of [c] times a positive infinity; [0 * Infinity]
    is [NaN]. *)
Definition signedInf (c : comparison) : number :=
  match c with
  | Gt => PInf
  | Lt => NInf
  | Eq => NaN
  end.

Definition mul (x y : number) : number :=
  match x, y with
  | NaN, _ | _, NaN => NaN
  | Fin a, Fin b => fin (a * b)%Q
  | Fin a, PInf | PInf, Fin a => signedInf (Qsign a)
  | Fin a, NInf | NInf, Fin a => signedInf (CompOpp (Qsign a))
  | PInf, PInf | NInf, NInf => PInf
  | PInf, NInf | NInf, PInf => NInf
  end.

(** Division; a zero divisor is the positive zero. *)
Definition div (x y : number) : number :=
  match x, y with
  | NaN, _ | _, NaN => NaN
  | Fin a, Fin b =>
      if Qeq_bool b 0 then signedInf (Qsign a) else fin (a / b)%Q
  | Fin _, (PInf | NInf) => zero
  | PInf, Fin b => if Qltb b 0 then NInf else PInf
  | NInf, Fin b => if Qltb b 0 then PInf else NInf
  | (PInf | NInf), (PInf | NInf) => NaN
  end.

(** [x < y]; every comparison with [NaN] is false. *)
Definition lt (x y : number) : bool :=
  match x, y with
  | NaN, _ | _, NaN => false
  | Fin a, Fin b => Qltb a b
  | _, NInf => false
  | PInf, _ => false
  | NInf, _ => true
  | _, PInf => true
  end.

Definition gt (x y : number) : bool := lt y x.

(** [x <= y]. *)
Definition le (x y : number) : bool :=
  match x, y with
  | NaN, _ | _, NaN => false
  | Fin a, Fin b => Qle_bool a b
  | NInf, _ => true
  | _, PInf => true
  | _, NInf => false
  | PInf, _ => false
  end.

(** [Math.floor]. *)
Definition floor (x : number) : number :=
  match x with
  | Fin a => ofZ (Qfloor a)
  | _ => x
  end.

(** [Math.abs]. *)
Definition abs (x : number) : number :=
  match x with
  | Fin a => fin (Qabs a)
  | PInf | NInf => PInf
  | NaN => NaN
  end.

(** [Math.min] and [Math.max] of two numbers. *)
Definition min (x y : number) : number :=
  match x, y with
  | NaN, _ | _, NaN => NaN
  | _, _ => if lt y x then y else x
  end.

Definition max (x y : number) : number :=
  match x, y with
  | NaN, _ | _, NaN => NaN
  | _, _ => if lt x y then y else x
  end.

(** [Math.max(...xs)]; [-Infinity] for no argument. *)
Definition maxOf (xs : list number) : number := fold_left max xs NInf.

(** Truthiness of a number: [0] and [NaN] are falsy. *)
Definition truthy (x : number) : bool :=
  match x with
  | Fin a => negb (Qeq_bool a 0)
  | PInf | NInf => true
  | NaN => false
  end.

(** Coercion of a possibly undefined value to a number. *)
Definition toNumber (v : option number) : number :=
  match v with
  | Some x => x
  | None => NaN
  end.

(** [v || 0]. *)
Definition orZero (v : option number) : number :=
  match v with
  | Some x => if truthy x then x else zero
  | None => zero
  end.

(** [x.toFixed(1)]: the decimal with one fraction digit closest to [x],
    ties away from zero.  (For [|x| >= 1e21] JavaScript switches to the
    exponent notation; the model keeps the fixed notation.) *)
Definition toFixed1 (x : number) : string :=
  match x with
  | NaN => "NaN"
  | PInf => "Infinity"
  | NInf => "-Infinity"
  | Fin a =>
      let s := if Qltb a 0 then "-" else "" in
      let n := Z.to_N (Qfloor (Qabs a * 10 + (1 # 2))%Q) in
      s +:+ pretty (n / 10)%N +:+ "." +:+ pretty (n mod 10)%N
  end.

(** Decimal literals of the source. *)
Definition dec (num : Z) (den : positive) : number := fin (num # den).

End JS.

Import JS.

(** ** Data model ([src/types/index.ts]) *)

Record HistoricalPrice : Type := mkHistoricalPrice {
  bar_date : string;
  bar_open : number;
  bar_high : number;
  bar_low : number;
  bar_close : number;
  bar_volume : number
}.

(** [assets] maps a ticker to the quantity held. *)
Record Portfolio : Type := mkPortfolio {
  assets : list (string * number);
  cash : number;
  totalValue : number;
  dailyReturns : list number;
  dates : list string;
  values : list number
}.

Inductive Action : Type := BUY | SELL.

(** [trade_price] is whatever [executeTrade] received: the day's close, or
    [undefined] when the day has no price for the ticker. *)
Record Trade : Type := mkTrade {
  trade_id : string;
  trade_date : string;
  trade_ticker : string;
  trade_action : Action;
  trade_quantity : number;
  trade_price : option number;
  trade_value : number;
  trade_reason : string
}.

Record RiskControls : Type := mkRiskControls {
  maxDrawdown : number;
  volatilityCap : number;
  stopLoss : number
}.

Record SimulationConfig : Type := mkSimulationConfig {
  tickers : list string;
  startDate : string;
  endDate : string;
  initialCapital : number;
  strategy : string;
  riskControls : RiskControls
}.

Record PerformanceMetrics : Type := mkPerformanceMetrics {
  m_totalReturn : number;
  m_sharpeRatio : number;
  m_maxDrawdown : number;
  m_winRate : number;
  m_volatility : number;
  m_alpha : number;
  m_beta : number
}.

Record ChartDataPoint : Type := mkChartDataPoint {
  pt_date : string;
  pt_value : option number;
  pt_drawdown : number;
  pt_benchmark : number
}.

Record SimulationResult : Type := mkSimulationResult {
  res_portfolio : Portfolio;
  res_trades : list Trade;
  res_metrics : PerformanceMetrics;
  res_chartData : list ChartDataPoint
}.

(** The signal objects built by [generateSignals]; [weight] is optional. *)
Record Signal : Type := mkSignal {
  sig_ticker : string;
  sig_action : Action;
  sig_weight : option number;
  sig_reason : string
}.

(** ** The [assets] object *)

(** [o[k]]. *)
Fixpoint obj_get (k : string) (o : list (string * number)) : option number :=
  match o with
  | [] => None
  | (k', v) :: r => if String.eqb k k' then Some v else obj_get k r
  end.

(** [k in o]. *)
Definition obj_has (k : string) (o : list (string * number)) : bool :=
  match obj_get k o with
  | Some _ => true
  | None => false
  end.

(** [o[k] = v]: an existing key keeps its place, a new key goes last. *)
Fixpoint obj_set (k : string) (v : number) (o : list (string * number))
  : list (string * number) :=
  match o with
  | [] => [(k, v)]
  | (k', v') :: r =>
      if String.eqb k k' then (k, v) :: r else (k', v') :: obj_set k v r
  end.

(** [delete o[k]]. *)
Fixpoint obj_delete (k : string) (o : list (string * number))
  : list (string * number) :=
  match o with
  | [] => []
  | (k', v') :: r =>
      if String.eqb k k' then obj_delete k r else (k', v') :: obj_delete k r
  end.

(** ** The simulator *)

(** The fields of a [PortfolioSimulator], the lines written to the console
    and the number of clock readings taken so far. *)
Record Simulator : Type := mkSimulator {
  config : SimulationConfig;
  historicalData : gmap string (list HistoricalPrice);
  portfolio : Portfolio;
  trades : list Trade;
  console : list string;
  clockReads : nat
}.

Definition withPortfolio (p : Portfolio) (s : Simulator) : Simulator :=
  mkSimulator (config s) (historicalData s) p (trades s) (console s)
    (clockReads s).

(** [new PortfolioSimulator(config)]. *)
Definition constructor (cfg : SimulationConfig) : Simulator :=
  {| config := cfg;
     historicalData := ∅;
     portfolio :=
       {| assets := [];
          cash := initialCapital cfg;
          totalValue := initialCapital cfg;
          dailyReturns := [];
          dates := [];
          values := [initialCapital cfg] |};
     trades := [];
     console := [];
     clockReads := 0 |}.

(** *** Trading calendar *)

(** [[...new Set(xs)]]: first occurrences, in order. *)
Definition setOf (xs : list string) : list string :=
  fold_left (fun acc x => if existsb (String.eqb x) acc then acc else acc ++ [x])
    xs [].

Fixpoint insertSorted (x : string) (l : list string) : list string :=
  match l with
  | [] => [x]
  | y :: r => if String.leb x y then x :: y :: r else y :: insertSorted x r
  end.

(** [xs.sort()]: ascending in the order of the code units. *)
Definition sortStrings (xs : list string) : list string :=
  foldr insertSorted [] xs.

Definition getTradingDates (s : Simulator) : list string :=
  let allDates :=
    map bar_date (concat (map snd (map_to_list (historicalData s)))) in
  sortStrings (setOf allDates).

(** *** Loading the price series *)

(** [loadHistoricalData]: every ticker is fetched; the run is rejected when
    a fetch is. *)
Fixpoint loadSeries (fetch : string -> string -> string -> option (list HistoricalPrice))
  (startD endD : string) (ts : list string)
  (hd : gmap string (list HistoricalPrice))
  : option (gmap string (list HistoricalPrice)) :=
  match ts with
  | [] => Some hd
  | t :: r =>
      match fetch t startD endD with
      | None => None
      | Some data => loadSeries fetch startD endD r (<[t := data]> hd)
      end
  end.

Definition loadHistoricalData
  (fetch : string -> string -> string -> option (list HistoricalPrice))
  (s : Simulator) : option Simulator :=
  match loadSeries fetch (startDate (config s)) (endDate (config s))
          (tickers (config s)) (historicalData s) with
  | None => None
  | Some hd =>
      Some (mkSimulator (config s) hd (portfolio s) (trades s) (console s)
              (clockReads s))
  end.

(** *** Signals *)

(** The first lines of [simulateDay]: today's close of every ticker that
    has a bar today. *)
Definition dayPrices (s : Simulator) (date : string) : gmap string number :=
  fold_left
    (fun (prices : gmap string number) ticker =>
       match historicalData s !! ticker with
       | Some data =>
           match find (fun d => String.eqb (bar_date d) date) data with
           | Some dayData => <[ticker := bar_close dayData]> prices
           | None => prices
           end
       | None => prices
       end)
    (tickers (config s)) ∅.

(** [data.findIndex(p)]: [None] stands for [-1]. *)
Fixpoint findIndex {A} (p : A -> bool) (l : list A) : option nat :=
  match l with
  | [] => None
  | x :: r => if p x then Some 0 else option_map S (findIndex p r)
  end.

Definition getRecentPrices (s : Simulator) (ticker currentDate : string)
  (days : nat) : list number :=
  let data := default [] (historicalData s !! ticker) in
  match findIndex (fun d => String.eqb (bar_date d) currentDate) data with
  | None => []
  | Some currentIndex =>
      if currentIndex + 1 <? days then []
      else
        map bar_close
          (drop (currentIndex + 1 - days) (take (currentIndex + 1) data))
  end.

Definition momentumOf (recent : list number) : number :=
  div (sub (toNumber (last recent)) (toNumber (head recent)))
    (toNumber (head recent)).

Definition momentumSignal (s : Simulator) (date ticker : string) : list Signal :=
  let recent := getRecentPrices s ticker date 20 in
  if 20 <=? length recent then
    let momentum := momentumOf recent in
    if gt momentum (dec 5 100) && negb (obj_has ticker (assets (portfolio s)))
    then
      [ {| sig_ticker := ticker;
           sig_action := BUY;
           sig_weight := Some (dec 2 10);
           sig_reason :=
             "Strong momentum: " +:+ toFixed1 (mul momentum (ofZ 100)) +:+ "%" |} ]
    else if lt momentum (dec (-5) 100) && obj_has ticker (assets (portfolio s))
    then
      [ {| sig_ticker := ticker;
           sig_action := SELL;
           sig_weight := None;
           sig_reason :=
             "Negative momentum: " +:+ toFixed1 (mul momentum (ofZ 100)) +:+ "%" |} ]
    else []
  else [].

Definition meanReversionSignal (s : Simulator) (date ticker : string)
  (prices : gmap string number) : list Signal :=
  let recent := getRecentPrices s ticker date 20 in
  if 20 <=? length recent then
    let currentPrice := toNumber (prices !! ticker) in
    let average := div (fold_left add recent zero) (ofNat (length recent)) in
    let deviation := div (sub currentPrice average) average in
    if lt deviation (dec (-1) 10) && negb (obj_has ticker (assets (portfolio s)))
    then
      [ {| sig_ticker := ticker;
           sig_action := BUY;
           sig_weight := Some (dec 2 10);
           sig_reason :=
             "Oversold: " +:+ toFixed1 (mul deviation (ofZ 100))
             +:+ "% below average" |} ]
    else if gt deviation (dec 1 10) && obj_has ticker (assets (portfolio s))
    then
      [ {| sig_ticker := ticker;
           sig_action := SELL;
           sig_weight := None;
           sig_reason :=
             "Overbought: " +:+ toFixed1 (mul deviation (ofZ 100))
             +:+ "% above average" |} ]
    else []
  else [].

Definition rebalanceSignal (s : Simulator) (prices : gmap string number)
  (ticker : string) : list Signal :=
  let targetWeight := div (ofZ 1) (ofNat (length (tickers (config s)))) in
  let currentValue :=
    mul (orZero (obj_get ticker (assets (portfolio s))))
      (toNumber (prices !! ticker)) in
  let currentWeight := div currentValue (totalValue (portfolio s)) in
  if gt (abs (sub currentWeight targetWeight)) (dec 5 100) then
    [ {| sig_ticker := ticker;
         sig_action := if gt currentWeight targetWeight then SELL else BUY;
         sig_weight := Some targetWeight;
         sig_reason := "Rebalancing to equal weights" |} ]
  else [].

(** The loops of [generateSignals] push the signals of one ticker after
    those of the tickers before it. *)
Definition generateSignals (s : Simulator) (date : string) (dayIndex : nat)
  (prices : gmap string number) : list Signal :=
  if String.eqb (strategy (config s)) "equal-weight" then
    if dayIndex =? 0 then
      let weightPerAsset := div (ofZ 1) (ofNat (length (tickers (config s)))) in
      map (fun ticker =>
             {| sig_ticker := ticker;
                sig_action := BUY;
                sig_weight := Some weightPerAsset;
                sig_reason := "Initial equal weight allocation" |})
        (tickers (config s))
    else if dayIndex mod 20 =? 0 then
      flat_map (rebalanceSignal s prices) (tickers (config s))
    else []
  else if String.eqb (strategy (config s)) "momentum" then
    if 20 <=? dayIndex then
      flat_map (momentumSignal s date) (tickers (config s))
    else []
  else if String.eqb (strategy (config s)) "mean-reversion" then
    if 20 <=? dayIndex then
      flat_map (fun ticker => meanReversionSignal s date ticker prices)
        (tickers (config s))
    else []
  else [].

(** *** Trade execution *)

Section Engine.

(** [now n] is the value of the n-th [Date.now()] of the run. *)
Variable now : nat -> N.

(** [signal.weight ? totalValue * signal.weight : Math.min(cash * 0.2, 10000)] *)
Definition targetValueOf (p : Portfolio) (weight : option number) : number :=
  match weight with
  | Some w =>
      if truthy w then mul (totalValue p) w
      else min (mul (cash p) (dec 2 10)) (ofZ 10000)
  | None => min (mul (cash p) (dec 2 10)) (ofZ 10000)
  end.

Definition tradeId (date ticker : string) (n : nat) : string :=
  date +:+ "-" +:+ ticker +:+ "-" +:+ pretty (now n).

Definition executeTrade (signal : Signal) (date : string)
  (price : option number) (s : Simulator) : Simulator :=
  let p := portfolio s in
  match sig_action signal with
  | BUY =>
      let targetValue := targetValueOf p (sig_weight signal) in
      let quantity := floor (div targetValue (toNumber price)) in
      let value := mul quantity (toNumber price) in
      if gt quantity zero && le value (cash p) then
        {| config := config s;
           historicalData := historicalData s;
           portfolio :=
             {| assets :=
                  obj_set (sig_ticker signal)
                    (add (orZero (obj_get (sig_ticker signal) (assets p)))
                       quantity)
                    (assets p);
                cash := sub (cash p) value;
                totalValue := totalValue p;
                dailyReturns := dailyReturns p;
                dates := dates p;
                values := values p |};
           trades :=
             trades s ++
             [ {| trade_id := tradeId date (sig_ticker signal) (clockReads s);
                  trade_date := date;
                  trade_ticker := sig_ticker signal;
                  trade_action := BUY;
                  trade_quantity := quantity;
                  trade_price := price;
                  trade_value := value;
                  trade_reason := sig_reason signal |} ];
           console := console s;
           clockReads := S (clockReads s) |}
      else s
  | SELL =>
      let quantity := orZero (obj_get (sig_ticker signal) (assets p)) in
      let value := mul quantity (toNumber price) in
      if gt quantity zero then
        {| config := config s;
           historicalData := historicalData s;
           portfolio :=
             {| assets := obj_delete (sig_ticker signal) (assets p);
                cash := add (cash p) value;
                totalValue := totalValue p;
                dailyReturns := dailyReturns p;
                dates := dates p;
                values := values p |};
           trades :=
             trades s ++
             [ {| trade_id := tradeId date (sig_ticker signal) (clockReads s);
                  trade_date := date;
                  trade_ticker := sig_ticker signal;
                  trade_action := SELL;
                  trade_quantity := quantity;
                  trade_price := price;
                  trade_value := value;
                  trade_reason := sig_reason signal |} ];
           console := console s;
           clockReads := S (clockReads s) |}
      else s
  end.

(** *** Mark-to-market *)

(** [cash] plus, entry after entry, [quantity * (prices[ticker] || 0)]. *)
Definition markToMarket (prices : gmap string number) (p : Portfolio) : number :=
  fold_left
    (fun acc (entry : string * number) =>
       add acc (mul (snd entry) (orZero (prices !! fst entry))))
    (assets p) (cash p).

Definition updatePortfolioValue (date : string) (prices : gmap string number)
  (s : Simulator) : Simulator :=
  let p := portfolio s in
  let newTotal := markToMarket prices p in
  let previousValue := totalValue p in
  let dailyReturn := div (sub newTotal previousValue) previousValue in
  withPortfolio
    {| assets := assets p;
       cash := cash p;
       totalValue := newTotal;
       dailyReturns := dailyReturns p ++ [dailyReturn];
       dates := dates p ++ [date];
       values := values p ++ [newTotal] |}
    s.

Definition simulateDay (date : string) (dayIndex : nat) (s : Simulator)
  : Simulator :=
  let prices := dayPrices s date in
  let signals := generateSignals s date dayIndex prices in
  let s1 :=
    fold_left
      (fun st signal => executeTrade signal date (prices !! sig_ticker signal) st)
      signals s in
  updatePortfolioValue date prices s1.

End Engine.

(** *** Risk controls *)

Definition calculateCurrentDrawdown (s : Simulator) : number :=
  let vs := values (portfolio s) in
  if length vs <? 2 then zero
  else
    let peak := maxOf vs in
    let current := toNumber (last vs) in
    div (sub peak current) peak.

Definition liquidateAll (date reason : string) (s : Simulator) : Simulator :=
  let p := portfolio s in
  {| config := config s;
     historicalData := historicalData s;
     portfolio :=
       {| assets := [];
          cash := cash p;
          totalValue := cash p;
          dailyReturns := dailyReturns p;
          dates := dates p;
          values := values p |};
     trades := trades s;
     console :=
       console s ++
       ["Liquidating all positions on " +:+ date +:+ " due to " +:+ reason];
     clockReads := clockReads s |}.

(** [currentLoss] of [applyRiskControls]. *)
Definition currentLossOf (s : Simulator) : number :=
  let initialValue := toNumber (head (values (portfolio s))) in
  div (sub initialValue (totalValue (portfolio s))) initialValue.

Definition applyRiskControls (date : string) (s : Simulator) : Simulator :=
  let currentDrawdown := calculateCurrentDrawdown s in
  let s1 :=
    if gt currentDrawdown (div (maxDrawdown (riskControls (config s))) (ofZ 100))
    then liquidateAll date "Max drawdown exceeded" s
    else s in
  let currentLoss := currentLossOf s1 in
  if gt currentLoss (div (stopLoss (riskControls (config s1))) (ofZ 100))
  then liquidateAll date "Stop loss triggered" s1
  else s1.

(** The daily loop of [simulate], from day [dayIndex] on. *)
Fixpoint runDays (now : nat -> N) (tradingDates : list string) (dayIndex : nat)
  (s : Simulator) : Simulator :=
  match tradingDates with
  | [] => s
  | date :: rest =>
      runDays now rest (S dayIndex)
        (applyRiskControls date (simulateDay now date dayIndex s))
  end.

(** *** Performance metrics *)

Section Metrics.

(** [Math.sqrt]. *)
Variable sqrt : number -> number.

Definition calculateVolatility (returns : list number) : number :=
  if length returns =? 0 then zero
  else
    let mean := div (fold_left add returns zero) (ofNat (length returns)) in
    let variance :=
      div
        (fold_left
           (fun acc ret => add acc (mul (sub ret mean) (sub ret mean)))
           returns zero)
        (ofNat (length returns)) in
    mul (sqrt variance) (sqrt (ofZ 252)).

Definition calculateSharpeRatio (returns : list number) : number :=
  if length returns =? 0 then zero
  else
    let meanReturn := div (fold_left add returns zero) (ofNat (length returns)) in
    let volatility := div (calculateVolatility returns) (sqrt (ofZ 252)) in
    let riskFreeRate := div (dec 2 100) (ofZ 252) in
    if gt volatility zero then div (sub meanReturn riskFreeRate) volatility
    else zero.

Definition calculateMaxDrawdown (s : Simulator) : number :=
  let vs := values (portfolio s) in
  snd
    (fold_left
       (fun (st : number * number) value =>
          let peak := if gt value (fst st) then value else fst st in
          let drawdown := div (sub peak value) peak in
          (peak, max (snd st) drawdown))
       vs (toNumber (head vs), zero)).

Definition calculateWinRate (s : Simulator) : number :=
  if length (trades s) =? 0 then zero
  else
    let isSell (t : Trade) :=
      match trade_action t with SELL => true | BUY => false end in
    let isBuy (t : Trade) :=
      match trade_action t with BUY => true | SELL => false end in
    let sellTrades := List.filter isSell (trades s) in
    let winningTrades :=
      List.filter
        (fun trade =>
           match
             find
               (fun t =>
                  String.eqb (trade_ticker t) (trade_ticker trade)
                  && isBuy t
                  && String.ltb (trade_date t) (trade_date trade))
               (trades s)
           with
           | Some buyTrade =>
               gt (toNumber (trade_price trade)) (toNumber (trade_price buyTrade))
           | None => false
           end)
        sellTrades in
    if 0 <? length sellTrades
    then div (ofNat (length winningTrades)) (ofNat (length sellTrades))
    else zero.

Definition calculateMetrics (s : Simulator) : PerformanceMetrics :=
  let returns := dailyReturns (portfolio s) in
  let initialValue := toNumber (head (values (portfolio s))) in
  let finalValue := totalValue (portfolio s) in
  {| m_totalReturn := div (sub finalValue initialValue) initialValue;
     m_sharpeRatio := calculateSharpeRatio returns;
     m_maxDrawdown := calculateMaxDrawdown s;
     m_winRate := calculateWinRate s;
     m_volatility := calculateVolatility returns;
     m_alpha := dec 2 100;
     m_beta := dec 11 10 |}.

Definition generateChartData (s : Simulator) : list ChartDataPoint :=
  imap
    (fun index date =>
       let value := values (portfolio s) !! (index + 1) in
       let peak := maxOf (take (index + 2) (values (portfolio s))) in
       let drawdown :=
         if lt (toNumber value) peak
         then div (sub peak (toNumber value)) peak
         else zero in
       {| pt_date := date;
          pt_value := value;
          pt_drawdown := mul drawdown (ofZ 100);
          pt_benchmark :=
            mul (initialCapital (config s))
              (add (ofZ 1) (mul (dec 3 10000) (ofNat index))) |})
    (dates (portfolio s)).

(** *** The run *)

Variable fetch : string -> string -> string -> option (list HistoricalPrice).
Variable now : nat -> N.

(** [simulate]: [None] when the price source rejects a ticker. *)
Definition simulate (s0 : Simulator) : option SimulationResult :=
  match loadHistoricalData fetch s0 with
  | None => None
  | Some s1 =>
      let tradingDates := getTradingDates s1 in
      let s2 := runDays now tradingDates 0 s1 in
      Some
        {| res_portfolio := portfolio s2;
           res_trades := trades s2;
           res_metrics := calculateMetrics s2;
           res_chartData := generateChartData s2 |}
  end.

(** [runSimulation(config)]. *)
Definition runSimulation (cfg : SimulationConfig) : option SimulationResult :=
  simulate (constructor cfg).

End Metrics.

(** ** Sample inputs *)

Module Sample.

Definition bar (d : string) (c : Z) : HistoricalPrice :=
  mkHistoricalPrice d (ofZ c) (ofZ c) (ofZ c) (ofZ c) (ofZ 0).

Definition limits : RiskControls := mkRiskControls (ofZ 20) (ofZ 25) (ofZ 15).

(** One ticker, bought on the first day at 300 and worth 100 from the
    second day on. *)
Definition crashConfig : SimulationConfig :=
  mkSimulationConfig ["AAPL"] "2023-01-02" "2023-01-04" (ofZ 1000)
    "equal-weight" limits.

Definition crashSource (ticker startD endD : string)
  : option (list HistoricalPrice) :=
  if String.eqb ticker "AAPL"
  then Some [bar "2023-01-02" 300; bar "2023-01-03" 100; bar "2023-01-04" 100]
  else None.

Definition clockA (n : nat) : N := (1700000000000 + N.of_nat n)%N.
Definition clockB (n : nat) : N := (1700000005000 + N.of_nat n)%N.

(** A ledger holding 3 AAPL and 100 in cash, valued at 1000. *)
Definition holding : Simulator :=
  {| config := crashConfig;
     historicalData := ∅;
     portfolio :=
       {| assets := [("AAPL", ofZ 3)];
          cash := ofZ 100;
          totalValue := ofZ 1000;
          dailyReturns := [zero];
          dates := ["2023-01-02"];
          values := [ofZ 1000; ofZ 1000] |};
     trades := [];
     console := [];
     clockReads := 0 |}.

Definition buyAAPL : Signal :=
  mkSignal "AAPL" BUY (Some (dec 2 10)) "Strong momentum: 6.0%".

Definition sellAAPL : Signal :=
  mkSignal "AAPL" SELL None "Negative momentum: -6.0%".

Definition sellMSFT : Signal :=
  mkSignal "MSFT" SELL None "Negative momentum: -6.0%".

(** A ledger with the initial capital in cash and no position. *)
Definition funded : Simulator := constructor crashConfig.

Definition crashBars : list HistoricalPrice :=
  [bar "2023-01-02" 300; bar "2023-01-03" 100; bar "2023-01-04" 100].

(** The simulator of [crashConfig] after the mark-to-market of the second
    day, before that day's risk check: 3 AAPL bought at 300 are worth 100
    each. *)
Definition marked : Simulator :=
  {| config := crashConfig;
     historicalData := {[ "AAPL" := crashBars ]};
     portfolio :=
       {| assets := [("AAPL", ofZ 3)];
          cash := ofZ 100;
          totalValue := ofZ 400;
          dailyReturns := [zero; dec (-3) 5];
          dates := ["2023-01-02"; "2023-01-03"];
          values := [ofZ 1000; ofZ 1000; ofZ 400] |};
     trades :=
       [ {| trade_id := "2023-01-02-AAPL-1700000000000";
            trade_date := "2023-01-02";
            trade_ticker := "AAPL";
            trade_action := BUY;
            trade_quantity := ofZ 3;
            trade_price := Some (ofZ 300);
            trade_value := ofZ 900;
            trade_reason := "Initial equal weight allocation" |} ];
     console := [];
     clockReads := 1 |}.

(** A ledger exactly 20% below both its peak and its initial capital, with
    a 20% drawdown limit and a 20% stop loss. *)
Definition atLimit : Simulator :=
  {| config :=
       mkSimulationConfig ["AAPL"] "2023-01-02" "2023-01-04" (ofZ 1000)
         "equal-weight" (mkRiskControls (ofZ 20) (ofZ 25) (ofZ 20));
     historicalData := ∅;
     portfolio :=
       {| assets := [("AAPL", ofZ 3)];
          cash := ofZ 500;
          totalValue := ofZ 800;
          dailyReturns := [dec (-2) 10];
          dates := ["2023-01-02"];
          values := [ofZ 1000; ofZ 800] |};
     trades := [];
     console := [];
     clockReads := 0 |}.

(** No ticker, the end before the start, no capital. *)
Definition invalidConfig : SimulationConfig :=
  mkSimulationConfig [] "2024-01-01" "2023-01-01" (ofZ 0) "momentum" limits.

(** A stand-in for [Math.sqrt] in concrete runs: the exact root where it is
    rational, else the root cut after 64 binary digits. *)
Definition sqrt64 (x : number) : number :=
  match x with
  | Fin a =>
      if Qltb a 0 then NaN
      else
        let n := Qnum (Qred a) in
        let d := Z.pos (Qden (Qred a)) in
        if (Z.sqrt n * Z.sqrt n =? n)%Z && (Z.sqrt d * Z.sqrt d =? d)%Z
        then fin (Z.sqrt n # Z.to_pos (Z.sqrt d))
        else fin (Z.sqrt (Qfloor (a * inject_Z (2 ^ 128))) # 2 ^ 64)
  | PInf => PInf
  | NInf | NaN => NaN
  end.

(** Twenty-one daily bars closing at 100, 101, ..., 120. *)
Definition risingBars : list HistoricalPrice :=
  map (fun i =>
         bar ("2023-03-" +:+ (if i <? 10 then "0" else "") +:+ pretty i)
           (100 + Z.of_nat i - 1))
    (seq 1 21).

Definition momentumConfig : SimulationConfig :=
  mkSimulationConfig ["AAPL"] "2023-03-01" "2023-03-21" (ofZ 1000)
    "momentum" limits.

Definition trending : Simulator :=
  {| config := momentumConfig;
     historicalData := {[ "AAPL" := risingBars ]};
     portfolio := portfolio (constructor momentumConfig);
     trades := [];
     console := [];
     clockReads := 0 |}.

End Sample.

(** ** Runs compared up to the trade ids *)

Definition eraseId (t : Trade) : Trade :=
  {| trade_id := "";
     trade_date := trade_date t;
     trade_ticker := trade_ticker t;
     trade_action := trade_action t;
     trade_quantity := trade_quantity t;
     trade_price := trade_price t;
     trade_value := trade_value t;
     trade_reason := trade_reason t |}.

Definition eraseIds (s : Simulator) : Simulator :=
  mkSimulator (config s) (historicalData s) (portfolio s)
    (map eraseId (trades s)) (console s) (clockReads s).

(** ** Financial utilities *)


(** ** Further sample inputs *)

Module Scenario.

(** Twenty daily bars closing at 120 and a twenty-first closing at 90. *)
Definition dippingBars : list HistoricalPrice :=
  map (fun i =>
         Sample.bar ("2023-03-" +:+ (if i <? 10 then "0" else "") +:+ pretty i)
           (if i <? 21 then 120 else 90))
    (seq 1 21).

Definition meanReversionConfig : SimulationConfig :=
  mkSimulationConfig ["AAPL"] "2023-03-01" "2023-03-21" (ofZ 1000)
    "mean-reversion" Sample.limits.

Definition dipping : Simulator :=
  {| config := meanReversionConfig;
     historicalData := {[ "AAPL" := dippingBars ]};
     portfolio := portfolio (constructor meanReversionConfig);
     trades := [];
     console := [];
     clockReads := 0 |}.

Definition dippingSource (ticker startD endD : string)
  : option (list HistoricalPrice) :=
  if String.eqb ticker "AAPL" then Some dippingBars else None.

Definition risingSource (ticker startD endD : string)
  : option (list HistoricalPrice) :=
  if String.eqb ticker "AAPL" then Some Sample.risingBars else None.

(** A strategy name the engine does not know. *)
Definition idleConfig : SimulationConfig :=
  mkSimulationConfig ["AAPL"] "2023-01-02" "2023-01-04" (ofZ 1000)
    "buy-and-hold" Sample.limits.

(** The momentum strategy on a calendar of three days. *)
Definition shortMomentumConfig : SimulationConfig :=
  mkSimulationConfig ["AAPL"] "2023-01-02" "2023-01-04" (ofZ 1000)
    "momentum" Sample.limits.

End Scenario.

(** ** Finite amounts *)




(** Reduce the projections of a simulator built with its constructor. *)
Ltac simulator_fields :=
  cbn [config historicalData portfolio trades console clockReads].

(** ** Numbers: comparison and propagation facts *)

Lemma Qltb_irrefl (a : Q) : Qltb a a = false.
Proof.
  unfold Qltb. rewrite (proj2 (Qle_bool_iff a a)); [reflexivity | apply Qle_refl].
Qed.

Lemma lt_irrefl (x : number) : lt x x = false.
Proof. destruct x; simpl; auto using Qltb_irrefl. Qed.

Lemma gt_irrefl (x : number) : gt x x = false.
Proof. apply lt_irrefl. Qed.

Lemma div_NaN_r (x : number) : div x NaN = NaN.
Proof. by destruct x. Qed.

Lemma Qltb_0_nonzero (a : Q) : Qltb 0 a = true -> Qeq_bool a 0 = false.
Proof.
  unfold Qltb. intros H. apply negb_true_iff in H.
  destruct (Qeq_bool a 0) eqn:E; [|reflexivity].
  apply Qeq_bool_iff in E.
  assert (Qle_bool a 0 = true) as Hle
    by (apply Qle_bool_iff; rewrite E; apply Qle_refl).
  congruence.
Qed.

(** A positive number is truthy. *)
Lemma gt_zero_truthy (q : number) : gt q zero = true -> truthy q = true.
Proof.
  destruct q as [a| | |]; simpl; try done.
  intros H. unfold gt, lt, zero, ofZ in H. simpl in H.
  by rewrite (Qltb_0_nonzero a H).
Qed.

Lemma orZero_positive (q : number) : gt q zero = true -> orZero (Some q) = q.
Proof. intros H. simpl. by rewrite (gt_zero_truthy q H). Qed.

(** ** The [assets] object: lookup after update *)

Lemma obj_get_set_eq k v o : obj_get k (obj_set k v o) = Some v.
Proof.
  induction o as [|[k' v'] r IH]; simpl.
  - by rewrite String.eqb_refl.
  - destruct (String.eqb k k') eqn:E; simpl; rewrite ?String.eqb_refl, ?E; done.
Qed.

Lemma obj_get_set_ne k k' v o :
  k <> k' -> obj_get k' (obj_set k v o) = obj_get k' o.
Proof.
  intros Hne. induction o as [|[k0 v0] r IH]; simpl.
  - destruct (String.eqb_spec k' k); congruence.
  - destruct (String.eqb_spec k k0) as [->|]; simpl.
    + destruct (String.eqb_spec k' k0); congruence.
    + by rewrite IH.
Qed.

Lemma obj_get_delete_eq k o : obj_get k (obj_delete k o) = None.
Proof.
  induction o as [|[k' v'] r IH]; simpl; [done|].
  destruct (String.eqb k k') eqn:E; simpl; rewrite ?E; done.
Qed.

Lemma obj_get_delete_ne k k' o :
  k <> k' -> obj_get k' (obj_delete k o) = obj_get k' o.
Proof.
  intros Hne. induction o as [|[k0 v0] r IH]; simpl; [done|].
  destruct (String.eqb_spec k k0) as [->|]; simpl.
  - destruct (String.eqb_spec k' k0); congruence.
  - by rewrite IH.
Qed.

Lemma obj_has_delete k o : obj_has k (obj_delete k o) = false.
Proof. unfold obj_has. by rewrite obj_get_delete_eq. Qed.

(** ** Trade execution *)

(** C10. A BUY signal executed on a day whose price table has no close for
    its ticker (the price handed to the executor is [undefined]) changes
    nothing: the quantity computed from the missing price is [NaN], which
    fails [quantity > 0]; no trade is appended, cash and positions stay as
    they were. *)
Theorem buy_without_price_changes_nothing
  (now : nat -> N) (signal : Signal) (date : string)
  (prices : gmap string number) (s : Simulator) :
  sig_action signal = BUY ->
  prices !! sig_ticker signal = None ->
  let price := prices !! sig_ticker signal in
  let quantity :=
    floor (div (targetValueOf (portfolio s) (sig_weight signal)) (toNumber price)) in
  quantity = NaN
  /\ gt quantity zero = false
  /\ executeTrade now signal date price s = s.
Proof.
  intros Hbuy Hnone. rewrite Hnone. cbv zeta.
  unfold executeTrade. rewrite Hbuy. simpl toNumber.
  rewrite div_NaN_r. simpl. done.
Qed.

Lemma buy_without_price_changes_nothing_witness :
  sig_action Sample.buyAAPL = BUY
  /\ (∅ : gmap string number) !! sig_ticker Sample.buyAAPL = None
  /\ executeTrade Sample.clockA Sample.buyAAPL "2023-01-03"
       ((∅ : gmap string number) !! sig_ticker Sample.buyAAPL) Sample.holding
     = Sample.holding.
Proof.
  split; [reflexivity|]. split; [reflexivity|].
  apply (buy_without_price_changes_nothing Sample.clockA Sample.buyAAPL
           "2023-01-03" ∅ Sample.holding); reflexivity.
Defined.

(** C8. A SELL signal sells the whole position of its ticker.  When the
    held quantity is positive the entry is removed from the positions, cash
    is credited by quantity times price and exactly one SELL trade is
    appended; when the ticker has no position the signal does nothing: no
    trade, the simulator state unchanged. *)
Theorem sell_closes_whole_position
  (now : nat -> N) (signal : Signal) (date : string) (price : option number)
  (s : Simulator) :
  sig_action signal = SELL ->
  let ticker := sig_ticker signal in
  let s' := executeTrade now signal date price s in
  (forall quantity,
      obj_get ticker (assets (portfolio s)) = Some quantity ->
      gt quantity zero = true ->
      assets (portfolio s') = obj_delete ticker (assets (portfolio s))
      /\ obj_has ticker (assets (portfolio s')) = false
      /\ (forall other, other <> ticker ->
            obj_get other (assets (portfolio s'))
            = obj_get other (assets (portfolio s)))
      /\ cash (portfolio s')
         = add (cash (portfolio s)) (mul quantity (toNumber price))
      /\ trades s'
         = trades s ++
           [ {| trade_id := tradeId now date ticker (clockReads s);
                trade_date := date;
                trade_ticker := ticker;
                trade_action := SELL;
                trade_quantity := quantity;
                trade_price := price;
                trade_value := mul quantity (toNumber price);
                trade_reason := sig_reason signal |} ])
  /\ (obj_get ticker (assets (portfolio s)) = None -> s' = s).
Proof.
  intros Hsell ticker s'. subst ticker s'. unfold executeTrade. rewrite Hsell.
  split.
  - intros quantity Hget Hpos. rewrite Hget, (orZero_positive _ Hpos), Hpos.
    simpl. repeat split; auto using obj_has_delete.
    intros other Hne. by apply obj_get_delete_ne.
  - intros Hnone. by rewrite Hnone.
Qed.

Lemma sell_closes_whole_position_witness :
  sig_action Sample.sellAAPL = SELL
  /\ cash (portfolio (executeTrade Sample.clockA Sample.sellAAPL "2023-01-03"
                        (Some (ofZ 100)) Sample.holding))
     = ofZ 400
  /\ executeTrade Sample.clockA Sample.sellMSFT "2023-01-03" (Some (ofZ 100))
       Sample.holding
     = Sample.holding.
Proof.
  split; [reflexivity|]. split.
  - destruct (sell_closes_whole_position Sample.clockA Sample.sellAAPL
                "2023-01-03" (Some (ofZ 100)) Sample.holding eq_refl)
      as [Hsold _].
    destruct (Hsold (ofZ 3) eq_refl eq_refl) as (_ & _ & _ & Hcash & _).
    rewrite Hcash. reflexivity.
  - apply (sell_closes_whole_position Sample.clockA Sample.sellMSFT
             "2023-01-03" (Some (ofZ 100)) Sample.holding eq_refl).
    reflexivity.
Defined.

(** Every BUY signal the generator emits carries a weight, and that weight
    is a non-zero number: one over the number of tickers, or 0.2. *)
Lemma one_over_count_truthy (n : nat) :
  0 < n -> truthy (div (ofZ 1) (ofNat n)) = true.
Proof.
  intros Hn. unfold div, ofNat, ofZ.
  assert (0 < inject_Z (Z.of_nat n))%Q as Hpos
    by (change 0%Q with (inject_Z 0); rewrite <- Zlt_Qlt; lia).
  destruct (Qeq_bool (inject_Z (Z.of_nat n)) 0) eqn:Hzero.
  - apply Qeq_bool_iff in Hzero. rewrite Hzero in Hpos.
    by apply Qlt_irrefl in Hpos.
  - unfold fin, truthy.
    destruct (Qeq_bool (Qred (inject_Z 1 / inject_Z (Z.of_nat n))) 0) eqn:E;
      [|reflexivity].
    apply Qeq_bool_iff in E. rewrite Qred_correct in E.
    assert (0 < inject_Z 1 / inject_Z (Z.of_nat n))%Q as Hquot.
    { apply Qlt_shift_div_l; [exact Hpos|]. rewrite Qmult_0_l. reflexivity. }
    rewrite E in Hquot. by apply Qlt_irrefl in Hquot.
Qed.

Lemma generated_buy_has_weight (s : Simulator) (date : string) (dayIndex : nat)
  (prices : gmap string number) (signal : Signal) :
  In signal (generateSignals s date dayIndex prices) ->
  sig_action signal = BUY ->
  exists w, sig_weight signal = Some w /\ truthy w = true.
Proof.
  unfold generateSignals. intros Hin Hbuy.
  assert (forall ticker, In ticker (tickers (config s)) ->
            truthy (div (ofZ 1) (ofNat (length (tickers (config s))))) = true)
    as Hcount.
  { intros ticker Hticker. apply one_over_count_truthy.
    destruct (tickers (config s)); [destruct Hticker | simpl; lia]. }
  destruct (String.eqb (strategy (config s)) "equal-weight").
  { destruct (dayIndex =? 0).
    - apply in_map_iff in Hin as (ticker & <- & Hticker). simpl. eauto.
    - destruct (dayIndex mod 20 =? 0); [|destruct Hin].
      apply in_flat_map in Hin as (ticker & Hticker & Hin).
      unfold rebalanceSignal in Hin.
      destruct (gt (abs _) _); [|destruct Hin].
      destruct Hin as [<- | []]. simpl. eauto. }
  destruct (String.eqb (strategy (config s)) "momentum").
  { destruct (20 <=? dayIndex); [|destruct Hin].
    apply in_flat_map in Hin as (ticker & Hticker & Hin).
    unfold momentumSignal in Hin.
    destruct (20 <=? length _); [|destruct Hin].
    destruct (_ && _).
    - destruct Hin as [<- | []]. simpl. eauto.
    - destruct (_ && _); [|destruct Hin].
      destruct Hin as [<- | []]. discriminate Hbuy. }
  destruct (String.eqb (strategy (config s)) "mean-reversion");
    [|destruct Hin].
  destruct (20 <=? dayIndex); [|destruct Hin].
  apply in_flat_map in Hin as (ticker & Hticker & Hin).
  unfold meanReversionSignal in Hin.
  destruct (20 <=? length _); [|destruct Hin].
  destruct (_ && _).
  - destruct Hin as [<- | []]. simpl. eauto.
  - destruct (_ && _); [|destruct Hin].
    destruct Hin as [<- | []]. discriminate Hbuy.
Qed.

(** C7. A BUY signal is sized and settled as follows.  The target notional
    is the total value times the weight when the signal carries a weight
    (a weight is a non-zero number), else the smaller of 0.2 times the cash
    and 10000; the quantity is the floor of the target notional over the
    price.  The trade executes exactly when [quantity > 0] and
    [quantity * price <= cash]: the position of the ticker grows by the
    quantity, the other positions stay, cash is debited by the trade value
    and exactly one BUY trade is appended.  Otherwise the signal is dropped:
    the simulator state is unchanged, no trade and no failure. *)
Theorem buy_sizing_and_settlement
  (now : nat -> N) (signal : Signal) (date : string) (price : option number)
  (s : Simulator) :
  sig_action signal = BUY ->
  (forall w, sig_weight signal = Some w -> truthy w = true) ->
  let ticker := sig_ticker signal in
  let targetNotional :=
    match sig_weight signal with
    | Some w => mul (totalValue (portfolio s)) w
    | None => min (mul (cash (portfolio s)) (dec 2 10)) (ofZ 10000)
    end in
  let quantity := floor (div targetNotional (toNumber price)) in
  let value := mul quantity (toNumber price) in
  let s' := executeTrade now signal date price s in
  (gt quantity zero = true /\ le value (cash (portfolio s)) = true ->
     obj_get ticker (assets (portfolio s'))
     = Some (add (orZero (obj_get ticker (assets (portfolio s)))) quantity)
     /\ (forall other, other <> ticker ->
           obj_get other (assets (portfolio s'))
           = obj_get other (assets (portfolio s)))
     /\ cash (portfolio s') = sub (cash (portfolio s)) value
     /\ trades s'
        = trades s ++
          [ {| trade_id := tradeId now date ticker (clockReads s);
               trade_date := date;
               trade_ticker := ticker;
               trade_action := BUY;
               trade_quantity := quantity;
               trade_price := price;
               trade_value := value;
               trade_reason := sig_reason signal |} ])
  /\ (~ (gt quantity zero = true /\ le value (cash (portfolio s)) = true) ->
      s' = s).
Proof.
  intros Hbuy Hweight ticker targetNotional quantity value s'.
  assert (targetValueOf (portfolio s) (sig_weight signal) = targetNotional)
    as Htarget.
  { subst targetNotional. unfold targetValueOf.
    destruct (sig_weight signal) as [w|]; [|done].
    by rewrite (Hweight w eq_refl). }
  subst s'. unfold executeTrade. rewrite Hbuy, Htarget.
  fold quantity. fold value. fold ticker.
  split.
  - intros [Hq Hv]. rewrite Hq, Hv. simpl.
    repeat split; auto using obj_get_set_eq.
    intros other Hne. apply obj_get_set_ne. congruence.
  - intros Hno. destruct (gt quantity zero) eqn:Hq; [|done].
    destruct (le value (cash (portfolio s))) eqn:Hv; [|done].
    by destruct Hno.
Qed.

Lemma buy_sizing_and_settlement_witness :
  sig_action Sample.buyAAPL = BUY
  /\ (forall w, sig_weight Sample.buyAAPL = Some w -> truthy w = true)
  /\ cash (portfolio (executeTrade Sample.clockA Sample.buyAAPL "2023-01-03"
                        (Some (ofZ 30)) Sample.funded))
     = ofZ 820
  /\ executeTrade Sample.clockA Sample.buyAAPL "2023-01-03" (Some (ofZ 30))
       Sample.holding
     = Sample.holding.
Proof.
  assert (forall w, sig_weight Sample.buyAAPL = Some w -> truthy w = true)
    as Hweight by (intros w [= <-]; reflexivity).
  split; [reflexivity|]. split; [exact Hweight|]. split.
  - destruct (buy_sizing_and_settlement Sample.clockA Sample.buyAAPL
                "2023-01-03" (Some (ofZ 30)) Sample.funded eq_refl Hweight)
      as [Hdone _].
    destruct (Hdone (conj eq_refl eq_refl)) as (_ & _ & Hcash & _).
    rewrite Hcash. reflexivity.
  - apply (buy_sizing_and_settlement Sample.clockA Sample.buyAAPL
             "2023-01-03" (Some (ofZ 30)) Sample.holding eq_refl Hweight).
    intros [_ Hle]. discriminate Hle.
Defined.

(** ** Risk controls *)

Lemma liquidateAll_effect (date reason : string) (s : Simulator) :
  let s' := liquidateAll date reason s in
  assets (portfolio s') = []
  /\ cash (portfolio s') = cash (portfolio s)
  /\ totalValue (portfolio s') = cash (portfolio s)
  /\ values (portfolio s') = values (portfolio s)
  /\ length (console s') = S (length (console s)).
Proof. simpl. rewrite length_app. simpl. repeat split; lia. Qed.

(** C6. Both risk controls compare strictly.  A liquidation is forced on a
    day exactly when the current drawdown is greater than
    [maxDrawdown / 100] or the current loss from the initial capital is
    greater than [stopLoss / 100]; a drawdown equal to its limit does not
    fire the drawdown control and a loss equal to its limit does not fire
    the stop loss, so with neither limit exceeded the state is left as it
    was. *)
Theorem risk_controls_compare_strictly (date : string) (s : Simulator) :
  let drawdownLimit := div (maxDrawdown (riskControls (config s))) (ofZ 100) in
  let lossLimit := div (stopLoss (riskControls (config s))) (ofZ 100) in
  let s' := applyRiskControls date s in
  (length (console s) < length (console s') <->
     gt (calculateCurrentDrawdown s) drawdownLimit = true
     \/ gt (currentLossOf s) lossLimit = true)
  /\ (gt (calculateCurrentDrawdown s) drawdownLimit = false ->
      gt (currentLossOf s) lossLimit = false -> s' = s)
  /\ (calculateCurrentDrawdown s = drawdownLimit ->
      gt (calculateCurrentDrawdown s) drawdownLimit = false)
  /\ (currentLossOf s = lossLimit -> gt (currentLossOf s) lossLimit = false)
  /\ (calculateCurrentDrawdown s = drawdownLimit ->
      currentLossOf s = lossLimit -> s' = s).
Proof.
  intros drawdownLimit lossLimit s'. subst s'. unfold applyRiskControls.
  fold drawdownLimit.
  assert (forall x y : number, x = y -> gt x y = false) as Heq
    by (intros x y ->; apply gt_irrefl).
  assert (forall d r st,
            length (console st) < length (console (liquidateAll d r st)))
    as Hgrow.
  { intros d r st. destruct (liquidateAll_effect d r st) as (_ & _ & _ & _ & ->).
    lia. }
  destruct (gt (calculateCurrentDrawdown s) drawdownLimit) eqn:Hdd.
  - split; [split|split; [|split; [|split]]].
    + intros _. by left.
    + intros _.
      pose proof (Hgrow date "Max drawdown exceeded" s) as H1.
      destruct (gt (currentLossOf _) _); [|exact H1].
      pose proof (Hgrow date "Stop loss triggered"
                    (liquidateAll date "Max drawdown exceeded" s)) as H2.
      lia.
    + discriminate.
    + intros E. by rewrite (Heq _ _ E) in Hdd.
    + auto.
    + intros E. by rewrite (Heq _ _ E) in Hdd.
  - fold lossLimit. destruct (gt (currentLossOf s) lossLimit) eqn:Hloss.
    + split; [split|split; [|split; [|split]]].
      * intros _. by right.
      * intros _. apply Hgrow.
      * discriminate.
      * done.
      * intros E. by rewrite (Heq _ _ E) in Hloss.
      * intros _ E. by rewrite (Heq _ _ E) in Hloss.
    + split; [split|split; [|split; [|split]]]; auto.
      * lia.
      * intros [?|?]; discriminate.
Qed.

Lemma risk_controls_compare_strictly_witness :
  gt (calculateCurrentDrawdown Sample.holding)
    (div (maxDrawdown (riskControls (config Sample.holding))) (ofZ 100)) = false
  /\ gt (currentLossOf Sample.holding)
       (div (stopLoss (riskControls (config Sample.holding))) (ofZ 100)) = false
  /\ applyRiskControls "2023-01-02" Sample.holding = Sample.holding
  /\ calculateCurrentDrawdown Sample.atLimit
     = div (maxDrawdown (riskControls (config Sample.atLimit))) (ofZ 100)
  /\ currentLossOf Sample.atLimit
     = div (stopLoss (riskControls (config Sample.atLimit))) (ofZ 100)
  /\ applyRiskControls "2023-01-02" Sample.atLimit = Sample.atLimit.
Proof.
  split; [reflexivity|]. split; [reflexivity|]. split.
  - destruct (risk_controls_compare_strictly "2023-01-02" Sample.holding)
      as (_ & Hquiet & _).
    apply Hquiet; reflexivity.
  - split; [reflexivity|]. split; [reflexivity|].
    destruct (risk_controls_compare_strictly "2023-01-02" Sample.atLimit)
      as (_ & _ & _ & _ & Hequal).
    apply Hequal; reflexivity.
Defined.

(** ** Mark-to-market *)

Lemma applyRiskControls_cases (date : string) (s : Simulator) :
  applyRiskControls date s = s
  \/ (length (console s) < length (console (applyRiskControls date s))
      /\ assets (portfolio (applyRiskControls date s)) = []
      /\ cash (portfolio (applyRiskControls date s)) = cash (portfolio s)
      /\ totalValue (portfolio (applyRiskControls date s)) = cash (portfolio s)).
Proof.
  unfold applyRiskControls.
  destruct (gt (calculateCurrentDrawdown s) _);
    destruct (gt (currentLossOf _) _); simpl; rewrite ?length_app; simpl;
    first [by left | right; repeat split; lia].
Qed.

(** C5. After a day's mark-to-market and risk check the total value is the
    cash plus, position after position, the held quantity times the day's
    close of its ticker, a ticker without a price that day counting for 0.
    This holds on a day with a forced liquidation too: the positions are
    then empty and the total value is the cash. *)
Theorem total_value_is_cash_plus_positions
  (now : nat -> N) (date : string) (dayIndex : nat) (s : Simulator) :
  let prices := dayPrices s date in
  let s' := applyRiskControls date (simulateDay now date dayIndex s) in
  totalValue (portfolio s')
  = fold_left
      (fun acc (position : string * number) =>
         add acc (mul (snd position) (orZero (prices !! fst position))))
      (assets (portfolio s')) (cash (portfolio s'))
  /\ (forall ticker quantity,
        prices !! ticker = None ->
        mul quantity (orZero (prices !! ticker)) = mul quantity zero)
  /\ (length (console (simulateDay now date dayIndex s)) < length (console s') ->
      assets (portfolio s') = []
      /\ totalValue (portfolio s') = cash (portfolio s')).
Proof.
  intros prices s'. subst s'.
  split; [|split].
  - destruct (applyRiskControls_cases date (simulateDay now date dayIndex s))
      as [-> | (_ & -> & -> & ->)]; reflexivity.
  - intros ticker quantity ->. reflexivity.
  - intros Hgrew.
    destruct (applyRiskControls_cases date (simulateDay now date dayIndex s))
      as [E | (_ & -> & -> & ->)]; [|done].
    rewrite E in Hgrew. lia.
Qed.

Lemma total_value_is_cash_plus_positions_witness :
  let day := simulateDay Sample.clockA "2023-01-03" 1 Sample.holding in
  let s' := applyRiskControls "2023-01-03" day in
  dayPrices Sample.holding "2023-01-03" !! "AAPL" = None
  /\ mul (ofZ 3) (orZero (dayPrices Sample.holding "2023-01-03" !! "AAPL"))
     = mul (ofZ 3) zero
  /\ length (console day) < length (console s')
  /\ assets (portfolio s') = []
  /\ totalValue (portfolio s') = cash (portfolio s').
Proof.
  destruct (total_value_is_cash_plus_positions Sample.clockA "2023-01-03" 1
              Sample.holding) as (_ & Hmissing & Hliquidated).
  assert (length (console (simulateDay Sample.clockA "2023-01-03" 1
                             Sample.holding))
          < length (console (applyRiskControls "2023-01-03"
                               (simulateDay Sample.clockA "2023-01-03" 1
                                  Sample.holding)))) as Hgrew
    by (vm_compute; lia).
  split; [reflexivity|].
  split; [apply (Hmissing "AAPL" (ofZ 3)); reflexivity|].
  split; [exact Hgrew|].
  exact (Hliquidated Hgrew).
Defined.

(** ** Momentum signals *)

(** The lookback window holds [days] closes or none. *)
Lemma getRecentPrices_length (s : Simulator) (ticker date : string) (days : nat) :
  length (getRecentPrices s ticker date days) = days
  \/ getRecentPrices s ticker date days = [].
Proof.
  unfold getRecentPrices.
  destruct (findIndex _ _) as [currentIndex|] eqn:Hidx; [|by right].
  destruct (currentIndex + 1 <? days) eqn:Hlt; [by right|].
  apply Nat.ltb_ge in Hlt. left.
  assert (currentIndex < length (default [] (historicalData s !! ticker)))
    as Hbound.
  { clear Hlt. revert currentIndex Hidx.
    induction (default [] (historicalData s !! ticker)) as [|d r IH];
      intros i Hi; simpl in *; [discriminate|].
    destruct (String.eqb (bar_date d) date).
    - injection Hi as <-. lia.
    - destruct (findIndex _ r) as [j|]; [|discriminate].
      injection Hi as <-. specialize (IH j eq_refl). lia. }
  rewrite length_map, length_drop, length_take. lia.
Qed.

(** The window ends at the first bar of the ticker dated [date]: it is the
    closes of that bar and of the [days - 1] bars before it. *)
Lemma getRecentPrices_window (s : Simulator) (ticker date : string)
  (days : nat) (before after : list HistoricalPrice) (today : HistoricalPrice) :
  historicalData s !! ticker = Some (before ++ today :: after) ->
  bar_date today = date ->
  Forall (fun d => bar_date d <> date) before ->
  getRecentPrices s ticker date days
  = if length before + 1 <? days then []
    else map bar_close (drop (length before + 1 - days) (before ++ [today])).
Proof.
  intros Hdata Htoday Hbefore. unfold getRecentPrices. rewrite Hdata. simpl.
  assert (findIndex (fun d => String.eqb (bar_date d) date)
            (before ++ today :: after) = Some (length before)) as ->.
  { clear Hdata. induction Hbefore as [|d r Hd _ IH]; simpl.
    - rewrite Htoday, String.eqb_refl. reflexivity.
    - destruct (String.eqb_spec (bar_date d) date); [done|].
      rewrite IH. reflexivity. }
  destruct (length before + 1 <? days); [done|].
  do 2 f_equal.
  replace (length before + 1) with (length (before ++ [today]))
    by (rewrite length_app; simpl; lia).
  rewrite (cons_middle today before after), app_assoc.
  by rewrite take_app_length.
Qed.

Lemma momentumSignal_cases (s : Simulator) (date ticker : string) :
  let recent := getRecentPrices s ticker date 20 in
  let momentum := momentumOf recent in
  let held := obj_has ticker (assets (portfolio s)) in
  (length recent = 20 /\ gt momentum (dec 5 100) = true /\ held = false
   /\ momentumSignal s date ticker
      = [ mkSignal ticker BUY (Some (dec 2 10))
            ("Strong momentum: " +:+ toFixed1 (mul momentum (ofZ 100)) +:+ "%") ])
  \/ (length recent = 20 /\ lt momentum (dec (-5) 100) = true /\ held = true
      /\ momentumSignal s date ticker
         = [ mkSignal ticker SELL None
               ("Negative momentum: " +:+ toFixed1 (mul momentum (ofZ 100))
                +:+ "%") ])
  \/ ((length recent <> 20
       \/ (gt momentum (dec 5 100) && negb held = false
           /\ lt momentum (dec (-5) 100) && held = false))
      /\ momentumSignal s date ticker = []).
Proof.
  intros recent momentum held. unfold momentumSignal.
  fold recent. fold momentum. fold held.
  destruct (getRecentPrices_length s ticker date 20) as [Hlen | Hnil];
    fold recent in Hlen || fold recent in Hnil.
  - rewrite Hlen. simpl (20 <=? 20).
    destruct (gt momentum (dec 5 100)) eqn:Hup, held eqn:Hheld; simpl;
      destruct (lt momentum (dec (-5) 100)) eqn:Hdown; simpl; auto 10.
  - rewrite Hnil. simpl. right. right. split; [left; discriminate | done].
Qed.

(** C9. With the momentum strategy no signal is emitted before day index
    20, and from then on only for configured tickers whose trailing window
    ending at the current date holds exactly 20 closes.  With
    [momentum = (latest - earliest) / earliest] over that window, the BUY
    signal of a ticker (weight 0.2) is emitted exactly when
    [momentum > 0.05] and the ticker has no open position, its SELL signal
    exactly when [momentum < -0.05] and the ticker has an open position, and
    nothing else is emitted. *)
Theorem momentum_signal_rule
  (s : Simulator) (date : string) (dayIndex : nat) (prices : gmap string number) :
  strategy (config s) = "momentum" ->
  let signals := generateSignals s date dayIndex prices in
  let window ticker := getRecentPrices s ticker date 20 in
  let earliest ticker := toNumber (head (window ticker)) in
  let latest ticker := toNumber (last (window ticker)) in
  let momentum ticker :=
    div (sub (latest ticker) (earliest ticker)) (earliest ticker) in
  let held ticker := obj_has ticker (assets (portfolio s)) in
  let buy ticker :=
    mkSignal ticker BUY (Some (dec 2 10))
      ("Strong momentum: " +:+ toFixed1 (mul (momentum ticker) (ofZ 100))
       +:+ "%") in
  let sell ticker :=
    mkSignal ticker SELL None
      ("Negative momentum: " +:+ toFixed1 (mul (momentum ticker) (ofZ 100))
       +:+ "%") in
  (dayIndex < 20 -> signals = [])
  /\ (forall signal, In signal signals ->
        20 <= dayIndex
        /\ In (sig_ticker signal) (tickers (config s))
        /\ length (window (sig_ticker signal)) = 20
        /\ (signal = buy (sig_ticker signal)
            \/ signal = sell (sig_ticker signal)))
  /\ (forall ticker,
        In (buy ticker) signals <->
        20 <= dayIndex /\ In ticker (tickers (config s))
        /\ length (window ticker) = 20
        /\ gt (momentum ticker) (dec 5 100) = true /\ held ticker = false)
  /\ (forall ticker,
        In (sell ticker) signals <->
        20 <= dayIndex /\ In ticker (tickers (config s))
        /\ length (window ticker) = 20
        /\ lt (momentum ticker) (dec (-5) 100) = true /\ held ticker = true).
Proof.
  intros Hstrategy signals window earliest latest momentum held buy sell.
  assert (signals
          = if 20 <=? dayIndex
            then flat_map (momentumSignal s date) (tickers (config s))
            else []) as Hsignals.
  { subst signals. unfold generateSignals. by rewrite Hstrategy. }
  assert (forall ticker signal,
            In signal (momentumSignal s date ticker) <->
            length (window ticker) = 20
            /\ ((gt (momentum ticker) (dec 5 100) = true
                 /\ held ticker = false /\ signal = buy ticker)
                \/ (lt (momentum ticker) (dec (-5) 100) = true
                    /\ held ticker = true /\ signal = sell ticker)))
    as Hone.
  { intros ticker signal.
    pose proof (momentumSignal_cases s date ticker) as Hcases.
    cbv zeta in Hcases. unfold momentumOf in Hcases.
    subst buy sell held momentum latest earliest window. cbv beta.
    destruct Hcases
      as [(Hlen & Hup & Hheld & Hsig) | [(Hlen & Hdown & Hheld & Hsig)
                                        | ([Hlen | [Hnb Hns]] & Hsig)]];
      rewrite Hsig; cbn [In].
    - split.
      + intros [<- | []]. auto.
      + intros (_ & [(_ & _ & ->) | (_ & Hh & _)]); [by left | congruence].
    - split.
      + intros [<- | []]. auto 6.
      + intros (_ & [(_ & Hh & _) | (_ & _ & ->)]); [congruence | by left].
    - split; [done | intros [? _]; done].
    - split; [done|].
      intros (_ & [(Hup & Hheld & _) | (Hdown & Hheld & _)]).
      + by rewrite Hup, Hheld in Hnb.
      + by rewrite Hdown, Hheld in Hns. }
  assert (forall signal,
            In signal signals <->
            20 <= dayIndex
            /\ exists ticker, In ticker (tickers (config s))
                              /\ In signal (momentumSignal s date ticker))
    as Hall.
  { intros signal. rewrite Hsignals.
    destruct (20 <=? dayIndex) eqn:Hday.
    - apply Nat.leb_le in Hday. rewrite in_flat_map. tauto.
    - apply Nat.leb_gt in Hday. simpl. split; [done | lia]. }
  split; [|split; [|split]].
  - intros Hearly. rewrite Hsignals.
    by rewrite (proj2 (Nat.leb_gt 20 dayIndex) Hearly).
  - intros signal Hin. apply Hall in Hin as (Hday & ticker & Hticker & Hin).
    apply Hone in Hin as (Hlen & [(_ & _ & ->) | (_ & _ & ->)]); simpl; auto.
  - intros ticker. rewrite Hall. split.
    + intros (Hday & ticker' & Hticker & Hin).
      apply Hone in Hin as (Hlen & [(Hup & Hheld & E) | (_ & _ & E)]);
        [|discriminate E].
      assert (ticker' = ticker) as -> by (injection E; auto). auto.
    + intros (Hday & Hticker & Hlen & Hup & Hheld).
      split; [done|]. exists ticker. split; [done|]. apply Hone. auto.
  - intros ticker. rewrite Hall. split.
    + intros (Hday & ticker' & Hticker & Hin).
      apply Hone in Hin as (Hlen & [(_ & _ & E) | (Hdown & Hheld & E)]);
        [discriminate E|].
      assert (ticker' = ticker) as -> by (injection E; auto). auto.
    + intros (Hday & Hticker & Hlen & Hdown & Hheld).
      split; [done|]. exists ticker. split; [done|]. apply Hone. auto 6.
Qed.

Lemma momentum_signal_rule_witness :
  strategy (config Sample.trending) = "momentum"
  /\ In (mkSignal "AAPL" BUY (Some (dec 2 10)) "Strong momentum: 18.8%")
       (generateSignals Sample.trending "2023-03-21" 20 ∅).
Proof.
  split; [reflexivity|].
  destruct (momentum_signal_rule Sample.trending "2023-03-21" 20 ∅ eq_refl)
    as (_ & _ & Hbuy & _).
  apply (Hbuy "AAPL").
  repeat split; vm_compute; auto.
Defined.

(** ** Forced liquidation and the ledger history *)

(** The sample state [Sample.marked] is the one the run of
    [Sample.crashConfig] reaches after the mark-to-market of its second
    day. *)
Lemma marked_is_reached :
  option_map
    (fun loaded =>
       simulateDay Sample.clockA "2023-01-03" 1
         (applyRiskControls "2023-01-02"
            (simulateDay Sample.clockA "2023-01-02" 0 loaded)))
    (loadHistoricalData Sample.crashSource (constructor Sample.crashConfig))
  = Some Sample.marked.
Proof. vm_compute. reflexivity. Qed.

(** C1. Evaluation at a state the claim fails on.  The ledger holds 3 AAPL
    worth 300 and 100 in cash, total value 400, down 60% from the peak of
    1000 with a 20% drawdown limit.  The risk check liquidates: the
    positions are cleared and the total value is set to the cash, 100; the
    cash stays 100 instead of becoming the total value of 400, so the 300
    held in the position are gone. *)
Theorem liquidation_leaves_cash_unchanged :
  let before := Sample.marked in
  let after := applyRiskControls "2023-01-03" before in
  assets (portfolio before) = [("AAPL", ofZ 3)]
  /\ cash (portfolio before) = ofZ 100
  /\ totalValue (portfolio before) = ofZ 400
  /\ console after
     = ["Liquidating all positions on 2023-01-03 due to Max drawdown exceeded";
        "Liquidating all positions on 2023-01-03 due to Stop loss triggered"]
  /\ assets (portfolio after) = []
  /\ cash (portfolio after) = ofZ 100
  /\ totalValue (portfolio after) = ofZ 100
  /\ cash (portfolio after) <> totalValue (portfolio before).
Proof. vm_compute. repeat split; discriminate. Qed.

(** The seed valuation and the alignment of returns with valuations:
    [values[0]] is fixed and [values] has one entry more than
    [dailyReturns].  Every step of the daily loop keeps both. *)
Lemma executeTrade_history (now : nat -> N) (signal : Signal) (date : string)
  (price : option number) (s : Simulator) :
  values (portfolio (executeTrade now signal date price s)) = values (portfolio s)
  /\ dailyReturns (portfolio (executeTrade now signal date price s))
     = dailyReturns (portfolio s)
  /\ config (executeTrade now signal date price s) = config s.
Proof.
  unfold executeTrade.
  destruct (sig_action signal); [destruct (_ && _) | destruct (gt _ _)]; done.
Qed.

Lemma applyRiskControls_history (date : string) (s : Simulator) :
  values (portfolio (applyRiskControls date s)) = values (portfolio s)
  /\ dailyReturns (portfolio (applyRiskControls date s))
     = dailyReturns (portfolio s)
  /\ config (applyRiskControls date s) = config s.
Proof.
  unfold applyRiskControls.
  destruct (gt (calculateCurrentDrawdown s) _);
    destruct (gt (currentLossOf _) _); done.
Qed.

Lemma simulateDay_history (now : nat -> N) (date : string) (dayIndex : nat)
  (s : Simulator) :
  exists newTotal,
    values (portfolio (simulateDay now date dayIndex s))
    = values (portfolio s) ++ [newTotal]
    /\ length (dailyReturns (portfolio (simulateDay now date dayIndex s)))
       = S (length (dailyReturns (portfolio s)))
    /\ config (simulateDay now date dayIndex s) = config s.
Proof.
  unfold simulateDay. cbv zeta.
  generalize (generateSignals s date dayIndex (dayPrices s date)) as signals.
  generalize (dayPrices s date) as prices.
  intros prices signals.
  assert (forall st,
            values (portfolio (fold_left
              (fun st signal =>
                 executeTrade now signal date (prices !! sig_ticker signal) st)
              signals st)) = values (portfolio st)
            /\ dailyReturns (portfolio (fold_left
              (fun st signal =>
                 executeTrade now signal date (prices !! sig_ticker signal) st)
              signals st)) = dailyReturns (portfolio st)
            /\ config (fold_left
              (fun st signal =>
                 executeTrade now signal date (prices !! sig_ticker signal) st)
              signals st) = config st) as Hfold.
  { induction signals as [|signal rest IH]; intros st; simpl; [done|].
    destruct (IH (executeTrade now signal date (prices !! sig_ticker signal) st))
      as (-> & -> & ->).
    apply executeTrade_history. }
  destruct (Hfold s) as (Hv & Hr & Hc).
  eexists. unfold updatePortfolioValue, withPortfolio. cbv zeta.
  cbn [portfolio values dailyReturns config].
  rewrite Hv, Hr, Hc, length_app. simpl.
  split; [reflexivity | split; [lia | reflexivity]].
Qed.

Lemma runDays_history (now : nat -> N) (tradingDates : list string)
  (dayIndex : nat) (s : Simulator) (seed : number) :
  head (values (portfolio s)) = Some seed ->
  length (values (portfolio s)) = S (length (dailyReturns (portfolio s))) ->
  head (values (portfolio (runDays now tradingDates dayIndex s))) = Some seed
  /\ length (values (portfolio (runDays now tradingDates dayIndex s)))
     = S (length (dailyReturns (portfolio (runDays now tradingDates dayIndex s)))).
Proof.
  revert dayIndex s.
  induction tradingDates as [|date rest IH]; intros dayIndex s Hseed Hlen;
    simpl; [done|].
  destruct (simulateDay_history now date dayIndex s) as (v & Hv & Hr & _).
  destruct (applyRiskControls_history date (simulateDay now date dayIndex s))
    as (Hv' & Hr' & _).
  apply IH.
  - rewrite Hv', Hv. destruct (values (portfolio s)); [discriminate | done].
  - rewrite Hv', Hr', Hv, Hr, length_app. simpl. lia.
Qed.

(** C3. Evaluation at a run the claim fails on.  In the run of
    [Sample.crashConfig] the second day ends with a forced liquidation that
    resets the total value from 400 to 100.  The valuation history is
    [1000; 1000; 400; 100] and has one entry more than the returns, but the
    third return is computed against the reset total value:
    [(100 - 100) / 100 = 0], not [(100 - 400) / 400 = -3/4]. *)
Theorem return_after_liquidation_ignores_history :
  let ledger :=
    option_map res_portfolio
      (runSimulation Sample.sqrt64 Sample.crashSource Sample.clockA
         Sample.crashConfig) in
  option_map values ledger = Some [ofZ 1000; ofZ 1000; ofZ 400; ofZ 100]
  /\ option_map dailyReturns ledger = Some [zero; dec (-3) 5; zero]
  /\ div (sub (ofZ 100) (ofZ 400)) (ofZ 400) = dec (-3) 4
  /\ option_map (fun p => dailyReturns p !! 2) ledger
     <> Some (Some (div (sub (ofZ 100) (ofZ 400)) (ofZ 400))).
Proof. vm_compute. repeat split; discriminate. Qed.

(** ** Configurations are not validated *)

Lemma loadSeries_rejects
  (fetch : string -> string -> string -> option (list HistoricalPrice))
  (startD endD : string) (ts : list string)
  (hd : gmap string (list HistoricalPrice)) :
  loadSeries fetch startD endD ts hd = None
  <-> exists ticker, In ticker ts /\ fetch ticker startD endD = None.
Proof.
  revert hd. induction ts as [|t r IH]; intros hd; simpl.
  - split; [discriminate | intros (? & [] & _)].
  - destruct (fetch t startD endD) as [data|] eqn:Hfetch.
    + rewrite IH. split.
      * intros (ticker & Hin & Hnone). eauto.
      * intros (ticker & [<- | Hin] & Hnone); [congruence | eauto].
    + split; [eauto | done].
Qed.

Lemma getTradingDates_no_series (s : Simulator) :
  historicalData s = ∅ -> getTradingDates s = [].
Proof.
  intros Hempty. unfold getTradingDates. rewrite Hempty, map_to_list_empty.
  reflexivity.
Qed.

(** C2, the claim at an invalid configuration: with no ticker, the end date
    before the start date and an initial capital of 0, the run is not
    rejected; it returns a ledger seeded with that capital, an empty trade
    log and metrics. *)
Lemma invalid_config_runs :
  runSimulation Sample.sqrt64 Sample.crashSource Sample.clockA
    Sample.invalidConfig
  = Some
      {| res_portfolio :=
           {| assets := [];
              cash := ofZ 0;
              totalValue := ofZ 0;
              dailyReturns := [];
              dates := [];
              values := [ofZ 0] |};
         res_trades := [];
         res_metrics :=
           {| m_totalReturn := NaN;
              m_sharpeRatio := zero;
              m_maxDrawdown := NaN;
              m_winRate := zero;
              m_volatility := zero;
              m_alpha := dec 2 100;
              m_beta := dec 11 10 |};
         res_chartData := [] |}
  /\ runSimulation Sample.sqrt64 Sample.crashSource Sample.clockA
       Sample.invalidConfig <> None.
Proof. vm_compute. split; [reflexivity | discriminate]. Qed.

(** C2, as the code has it.  The engine does not validate the
    configuration.  The constructor seeds the ledger from any configuration
    (cash and total value the initial capital, one valuation, no position);
    a run is rejected exactly when the price source rejects one of the
    configured tickers; and a configuration without tickers, whatever its
    dates and capital, runs to the end and returns the seed ledger with an
    empty trade log. *)
Theorem run_rejected_only_by_price_source
  (sqrt : number -> number)
  (fetch : string -> string -> string -> option (list HistoricalPrice))
  (now : nat -> N) (cfg : SimulationConfig) :
  portfolio (constructor cfg)
  = {| assets := [];
       cash := initialCapital cfg;
       totalValue := initialCapital cfg;
       dailyReturns := [];
       dates := [];
       values := [initialCapital cfg] |}
  /\ (runSimulation sqrt fetch now cfg = None
      <-> exists ticker,
            In ticker (tickers cfg)
            /\ fetch ticker (startDate cfg) (endDate cfg) = None)
  /\ (tickers cfg = [] ->
      runSimulation sqrt fetch now cfg
      = Some
          {| res_portfolio := portfolio (constructor cfg);
             res_trades := [];
             res_metrics := calculateMetrics sqrt (constructor cfg);
             res_chartData := [] |}).
Proof.
  split; [reflexivity|]. split.
  - unfold runSimulation, simulate, loadHistoricalData. simpl.
    rewrite <- loadSeries_rejects with (hd := ∅).
    destruct (loadSeries _ _ _ _ _); split; done.
  - intros Hnone. unfold runSimulation, simulate, loadHistoricalData. simpl.
    rewrite Hnone. simpl.
    rewrite getTradingDates_no_series by reflexivity. reflexivity.
Qed.

Lemma run_rejected_only_by_price_source_witness :
  tickers Sample.invalidConfig = []
  /\ runSimulation Sample.sqrt64 Sample.crashSource Sample.clockA
       Sample.invalidConfig
     = Some
         {| res_portfolio := portfolio (constructor Sample.invalidConfig);
            res_trades := [];
            res_metrics :=
              calculateMetrics Sample.sqrt64 (constructor Sample.invalidConfig);
            res_chartData := [] |}.
Proof.
  split; [reflexivity|].
  apply (run_rejected_only_by_price_source Sample.sqrt64 Sample.crashSource
           Sample.clockA Sample.invalidConfig).
  reflexivity.
Defined.

(** The history of every completed run starts at the initial capital and
    has one valuation more than it has returns. *)
Lemma run_history_shape
  (sqrt : number -> number)
  (fetch : string -> string -> string -> option (list HistoricalPrice))
  (now : nat -> N) (cfg : SimulationConfig) (r : SimulationResult) :
  runSimulation sqrt fetch now cfg = Some r ->
  head (values (res_portfolio r)) = Some (initialCapital cfg)
  /\ length (values (res_portfolio r))
     = S (length (dailyReturns (res_portfolio r))).
Proof.
  unfold runSimulation, simulate, loadHistoricalData.
  destruct (loadSeries _ _ _ _ _) as [hd|]; [|discriminate].
  intros [= <-]. cbn [res_portfolio]. by apply runDays_history.
Qed.

(** ** Two runs of one configuration *)

Lemma filter_map_commute {A B} (f : A -> B) (p : B -> bool) (q : A -> bool)
  (l : list A) :
  (forall x, p (f x) = q x) ->
  List.filter p (map f l) = map f (List.filter q l).
Proof.
  intros Hpq. induction l as [|x r IH]; simpl; [done|].
  rewrite Hpq, IH. by destruct (q x).
Qed.

Lemma find_map_commute {A B} (f : A -> B) (p : B -> bool) (q : A -> bool)
  (l : list A) :
  (forall x, p (f x) = q x) ->
  find p (map f l) = option_map f (find q l).
Proof.
  intros Hpq. induction l as [|x r IH]; simpl; [done|].
  rewrite Hpq, IH. by destruct (q x).
Qed.

(** The win rate reads the ticker, action, date and price of the trades,
    not their ids. *)
Lemma calculateWinRate_eraseIds (s : Simulator) :
  calculateWinRate (eraseIds s) = calculateWinRate s.
Proof.
  unfold calculateWinRate. cbn [trades eraseIds].
  rewrite length_map.
  destruct (length (trades s) =? 0); [done|].
  erewrite (filter_map_commute eraseId)
    with (q := fun t : Trade => match trade_action t with SELL => true | BUY => false end)
    by done.
  erewrite (filter_map_commute eraseId)
    with (q := fun trade : Trade =>
                 match
                   find
                     (fun t : Trade =>
                        String.eqb (trade_ticker t) (trade_ticker trade)
                        && match trade_action t with
                           | BUY => true
                           | SELL => false
                           end
                        && String.ltb (trade_date t) (trade_date trade))
                     (trades s)
                 with
                 | Some buyTrade =>
                     gt (toNumber (trade_price trade))
                       (toNumber (trade_price buyTrade))
                 | None => false
                 end).
  - by rewrite !length_map.
  - intros trade.
    erewrite (find_map_commute eraseId)
      with (q := fun t : Trade =>
                   String.eqb (trade_ticker t) (trade_ticker trade)
                   && match trade_action t with BUY => true | SELL => false end
                   && String.ltb (trade_date t) (trade_date trade))
      by done.
    by destruct (find _ (trades s)).
Qed.

Lemma calculateMetrics_eraseIds (sqrt : number -> number) (s : Simulator) :
  calculateMetrics sqrt (eraseIds s) = calculateMetrics sqrt s.
Proof.
  unfold calculateMetrics. rewrite calculateWinRate_eraseIds. reflexivity.
Qed.

(** What a step decides depends on the ledger, never on the ids already
    issued: two simulators equal up to trade ids stay so. *)
Lemma executeTrade_eraseIds (nowA nowB : nat -> N) (signal : Signal)
  (date : string) (price : option number) (sA sB : Simulator) :
  eraseIds sA = eraseIds sB ->
  eraseIds (executeTrade nowA signal date price sA)
  = eraseIds (executeTrade nowB signal date price sB).
Proof.
  destruct sA as [cA hA pA tA oA nA], sB as [cB hB pB tB oB nB].
  unfold eraseIds. simulator_fields.
  intros [= -> -> -> Ht -> ->].
  unfold executeTrade. simulator_fields.
  destruct (sig_action signal).
  - destruct (_ && _);
      simulator_fields;
      rewrite ?map_app, ?Ht; reflexivity.
  - destruct (gt _ _);
      simulator_fields;
      rewrite ?map_app, ?Ht; reflexivity.
Qed.

Lemma applyRiskControls_eraseIds_commute (date : string) (s : Simulator) :
  eraseIds (applyRiskControls date s) = applyRiskControls date (eraseIds s).
Proof.
  unfold applyRiskControls. cbv zeta.
  change (calculateCurrentDrawdown (eraseIds s))
    with (calculateCurrentDrawdown s).
  change (config (eraseIds s)) with (config s).
  destruct (gt (calculateCurrentDrawdown s) _).
  - change (currentLossOf (liquidateAll date "Max drawdown exceeded" (eraseIds s)))
      with (currentLossOf (liquidateAll date "Max drawdown exceeded" s)).
    change (config (liquidateAll date "Max drawdown exceeded" (eraseIds s)))
      with (config (liquidateAll date "Max drawdown exceeded" s)).
    destruct (gt (currentLossOf _) _); reflexivity.
  - change (currentLossOf (eraseIds s)) with (currentLossOf s).
    destruct (gt (currentLossOf _) _); reflexivity.
Qed.

Lemma applyRiskControls_eraseIds (date : string) (sA sB : Simulator) :
  eraseIds sA = eraseIds sB ->
  eraseIds (applyRiskControls date sA) = eraseIds (applyRiskControls date sB).
Proof.
  intros Hsame. rewrite !applyRiskControls_eraseIds_commute. by rewrite Hsame.
Qed.

Lemma simulateDay_eraseIds (nowA nowB : nat -> N) (date : string)
  (dayIndex : nat) (sA sB : Simulator) :
  eraseIds sA = eraseIds sB ->
  eraseIds (simulateDay nowA date dayIndex sA)
  = eraseIds (simulateDay nowB date dayIndex sB).
Proof.
  intros Hsame. unfold simulateDay. cbv zeta.
  assert (dayPrices sA date = dayPrices sB date) as <-.
  { change (dayPrices (eraseIds sA) date = dayPrices sB date).
    rewrite Hsame. reflexivity. }
  assert (generateSignals sA date dayIndex (dayPrices sA date)
          = generateSignals sB date dayIndex (dayPrices sA date)) as <-.
  { change (generateSignals (eraseIds sA) date dayIndex (dayPrices sA date)
            = generateSignals sB date dayIndex (dayPrices sA date)).
    rewrite Hsame. reflexivity. }
  generalize (generateSignals sA date dayIndex (dayPrices sA date)) as signals.
  generalize (dayPrices sA date) as prices. intros prices signals.
  revert sA sB Hsame.
  induction signals as [|signal rest IH]; intros sA sB Hsame; simpl.
  - change (updatePortfolioValue date prices (eraseIds sA)
            = updatePortfolioValue date prices (eraseIds sB)).
    by rewrite Hsame.
  - apply IH. by apply executeTrade_eraseIds.
Qed.

Lemma runDays_eraseIds (nowA nowB : nat -> N) (tradingDates : list string)
  (dayIndex : nat) (sA sB : Simulator) :
  eraseIds sA = eraseIds sB ->
  eraseIds (runDays nowA tradingDates dayIndex sA)
  = eraseIds (runDays nowB tradingDates dayIndex sB).
Proof.
  revert dayIndex sA sB.
  induction tradingDates as [|date rest IH]; intros dayIndex sA sB Hsame;
    simpl; [done|].
  apply IH, applyRiskControls_eraseIds, simulateDay_eraseIds, Hsame.
Qed.

(** C4, the claim at a concrete pair of runs: the same configuration and
    the same price source, run at two different times, give trade logs that
    differ in the id of the trade. *)
Lemma rerun_changes_trade_ids :
  option_map (fun r => map trade_id (res_trades r))
    (runSimulation Sample.sqrt64 Sample.crashSource Sample.clockA
       Sample.crashConfig)
  = Some ["2023-01-02-AAPL-1700000000000"]
  /\ option_map (fun r => map trade_id (res_trades r))
       (runSimulation Sample.sqrt64 Sample.crashSource Sample.clockB
          Sample.crashConfig)
     = Some ["2023-01-02-AAPL-1700000005000"]
  /\ option_map res_trades
       (runSimulation Sample.sqrt64 Sample.crashSource Sample.clockA
          Sample.crashConfig)
     <> option_map res_trades
          (runSimulation Sample.sqrt64 Sample.crashSource Sample.clockB
             Sample.crashConfig).
Proof. vm_compute. repeat split; discriminate. Qed.

(** C4, as the code has it.  Two runs of one configuration against the same
    price source, whatever the clock reads in each, either are both
    rejected or both complete with the same ledger, the same performance
    metrics, the same chart series and trade logs of the same length that
    agree trade by trade on every field except the id, which embeds the
    time of execution. *)
Theorem reruns_agree_except_trade_ids
  (sqrt : number -> number)
  (fetch : string -> string -> string -> option (list HistoricalPrice))
  (nowA nowB : nat -> N) (cfg : SimulationConfig) :
  match runSimulation sqrt fetch nowA cfg, runSimulation sqrt fetch nowB cfg with
  | Some a, Some b =>
      res_metrics a = res_metrics b
      /\ res_portfolio a = res_portfolio b
      /\ res_chartData a = res_chartData b
      /\ length (res_trades a) = length (res_trades b)
      /\ map eraseId (res_trades a) = map eraseId (res_trades b)
      /\ (forall i ta tb,
            res_trades a !! i = Some ta -> res_trades b !! i = Some tb ->
            trade_date ta = trade_date tb
            /\ trade_ticker ta = trade_ticker tb
            /\ trade_action ta = trade_action tb
            /\ trade_quantity ta = trade_quantity tb
            /\ trade_price ta = trade_price tb
            /\ trade_value ta = trade_value tb
            /\ trade_reason ta = trade_reason tb)
  | None, None => True
  | _, _ => False
  end.
Proof.
  unfold runSimulation, simulate.
  destruct (loadHistoricalData fetch (constructor cfg)) as [loaded|]; [|done].
  cbv zeta. cbn [res_metrics res_portfolio res_chartData res_trades].
  pose proof (runDays_eraseIds nowA nowB (getTradingDates loaded) 0 loaded
                loaded eq_refl) as Hsame.
  set (a := runDays nowA (getTradingDates loaded) 0 loaded) in *.
  set (b := runDays nowB (getTradingDates loaded) 0 loaded) in *.
  assert (map eraseId (trades a) = map eraseId (trades b)) as Hlog
    by exact (f_equal trades Hsame).
  split; [|split; [|split; [|split; [|split]]]].
  - rewrite <- (calculateMetrics_eraseIds sqrt a),
      <- (calculateMetrics_eraseIds sqrt b).
    by rewrite Hsame.
  - exact (f_equal portfolio Hsame).
  - change (generateChartData (eraseIds a) = generateChartData (eraseIds b)).
    by rewrite Hsame.
  - rewrite <- (length_map eraseId (trades a)),
      <- (length_map eraseId (trades b)).
    by rewrite Hlog.
  - exact Hlog.
  - intros i ta tb Ha Hb.
    assert (eraseId ta = eraseId tb) as E.
    { assert (map eraseId (trades a) !! i = Some (eraseId ta)) as Ha'
        by (rewrite list_lookup_fmap, Ha; done).
      assert (map eraseId (trades b) !! i = Some (eraseId tb)) as Hb'
        by (rewrite list_lookup_fmap, Hb; done).
      rewrite Hlog in Ha'. congruence. }
    injection E. auto 10.
Qed.

Lemma reruns_agree_except_trade_ids_witness :
  match
    runSimulation Sample.sqrt64 Sample.crashSource Sample.clockA
      Sample.crashConfig,
    runSimulation Sample.sqrt64 Sample.crashSource Sample.clockB
      Sample.crashConfig
  with
  | Some a, Some b =>
      res_metrics a = res_metrics b
      /\ map eraseId (res_trades a) = map eraseId (res_trades b)
      /\ exists ta tb,
           res_trades a !! 0 = Some ta /\ res_trades b !! 0 = Some tb
           /\ trade_id ta <> trade_id tb
           /\ trade_quantity ta = trade_quantity tb
           /\ trade_value ta = trade_value tb
  | _, _ => False
  end.
Proof.
  pose proof (reruns_agree_except_trade_ids Sample.sqrt64 Sample.crashSource
                Sample.clockA Sample.clockB Sample.crashConfig) as Hruns.
  destruct (runSimulation Sample.sqrt64 Sample.crashSource Sample.clockA
              Sample.crashConfig) as [a|] eqn:Ea;
    [|vm_compute in Ea; discriminate Ea].
  destruct (runSimulation Sample.sqrt64 Sample.crashSource Sample.clockB
              Sample.crashConfig) as [b|] eqn:Eb;
    [|vm_compute in Eb; discriminate Eb].
  destruct Hruns as (Hmetrics & _ & _ & _ & Hlog & Hfields).
  split; [exact Hmetrics|]. split; [exact Hlog|].
  vm_compute in Ea. vm_compute in Eb.
  injection Ea as <-. injection Eb as <-.
  eexists _, _. split; [reflexivity|]. split; [reflexivity|].
  split; [discriminate|].
  destruct (Hfields 0 _ _ eq_refl eq_refl) as (_ & _ & _ & Hq & _ & Hv & _).
  split; [exact Hq | exact Hv].
Defined.

(** * Further properties of the engine *)

(** ** Loading and reading the price series *)

Lemma loadSeries_lookup
  (fetch : string -> string -> string -> option (list HistoricalPrice))
  (startD endD : string) (ts : list string)
  (hd hd' : gmap string (list HistoricalPrice)) :
  loadSeries fetch startD endD ts hd = Some hd' ->
  (forall ticker, In ticker ts -> hd' !! ticker = fetch ticker startD endD)
  /\ (forall ticker, ~ In ticker ts -> hd' !! ticker = hd !! ticker).
Proof.
  revert hd. induction ts as [|t r IH]; intros hd Hload; simpl in Hload.
  - injection Hload as <-. split; [intros ? [] | done].
  - destruct (fetch t startD endD) as [data|] eqn:Hfetch; [|discriminate].
    destruct (IH _ Hload) as [Hin Hout]. split.
    + intros ticker [<- | Hticker]; [|by apply Hin].
      destruct (in_dec String.string_dec t r) as [Hr | Hr]; [by apply Hin|].
      rewrite (Hout t Hr), lookup_insert_eq. by rewrite Hfetch.
    + intros ticker Hnot. rewrite Hout by (intros ?; apply Hnot; by right).
      apply lookup_insert_ne. intros ->. apply Hnot. by left.
Qed.

Lemma loadHistoricalData_keeps
  (fetch : string -> string -> string -> option (list HistoricalPrice))
  (s s' : Simulator) :
  loadHistoricalData fetch s = Some s' ->
  config s' = config s /\ portfolio s' = portfolio s /\ trades s' = trades s
  /\ clockReads s' = clockReads s.
Proof.
  unfold loadHistoricalData.
  destruct (loadSeries _ _ _ _ _); [|discriminate]. by intros [= <-].
Qed.

(** X1. When loading succeeds every configured ticker is mapped to exactly
    the series the price source returned for it over the configured date
    range, the series of other keys are untouched, and the ledger, the
    trade log and the configuration are as before. *)
Theorem loaded_series_are_the_fetched_ones
  (fetch : string -> string -> string -> option (list HistoricalPrice))
  (s s' : Simulator) :
  loadHistoricalData fetch s = Some s' ->
  (forall ticker, In ticker (tickers (config s)) ->
     historicalData s' !! ticker
     = fetch ticker (startDate (config s)) (endDate (config s)))
  /\ (forall ticker, ~ In ticker (tickers (config s)) ->
        historicalData s' !! ticker = historicalData s !! ticker)
  /\ config s' = config s
  /\ portfolio s' = portfolio s
  /\ trades s' = trades s.
Proof.
  unfold loadHistoricalData.
  destruct (loadSeries _ _ _ _ _) as [hd|] eqn:Hload; [|discriminate].
  intros [= <-]. simpl.
  destruct (loadSeries_lookup _ _ _ _ _ _ Hload) as [Hin Hout]. auto.
Qed.

Lemma loaded_series_are_the_fetched_ones_witness :
  exists s',
    loadHistoricalData Sample.crashSource (constructor Sample.crashConfig)
    = Some s'
    /\ historicalData s' !! "AAPL" = Some Sample.crashBars
    /\ historicalData s' !! "MSFT" = None.
Proof.
  destruct (loadHistoricalData Sample.crashSource
              (constructor Sample.crashConfig)) as [s'|] eqn:Hload;
    [|vm_compute in Hload; discriminate Hload].
  exists s'. split; [reflexivity|].
  destruct (loaded_series_are_the_fetched_ones Sample.crashSource
              (constructor Sample.crashConfig) s' Hload) as (Hin & Hout & _).
  split.
  - rewrite (Hin "AAPL") by (simpl; auto). reflexivity.
  - rewrite (Hout "MSFT") by (simpl; intros [H | []]; discriminate H).
    reflexivity.
Defined.

Lemma dayPrices_fold_lookup (hd : gmap string (list HistoricalPrice))
  (date : string) (ts : list string) (acc : gmap string number)
  (ticker : string) :
  fold_left
    (fun (prices : gmap string number) t =>
       match hd !! t with
       | Some data =>
           match find (fun d => String.eqb (bar_date d) date) data with
           | Some dayData => <[t := bar_close dayData]> prices
           | None => prices
           end
       | None => prices
       end)
    ts acc !! ticker
  = match
      (if in_dec String.string_dec ticker ts
       then
         match hd !! ticker with
         | Some data =>
             option_map bar_close
               (find (fun d => String.eqb (bar_date d) date) data)
         | None => None
         end
       else None)
    with
    | Some c => Some c
    | None => acc !! ticker
    end.
Proof.
  revert acc. induction ts as [|t r IH]; intros acc; [done|].
  cbn [fold_left]. rewrite IH.
  destruct (in_dec String.string_dec ticker r) as [Hr | Hr];
    destruct (in_dec String.string_dec ticker (t :: r)) as [Htr | Htr];
    try (exfalso; apply Htr; by right).
  - destruct (hd !! ticker) as [data|] eqn:Hdata; simpl.
    + destruct (find _ data) as [b|] eqn:Hfind; simpl; [done|].
      destruct (String.string_dec t ticker) as [-> | Hne].
      * by rewrite Hdata, Hfind.
      * destruct (hd !! t) as [data'|]; [|done].
        destruct (find _ data'); [|done]. by apply lookup_insert_ne.
    + destruct (String.string_dec t ticker) as [-> | Hne].
      * by rewrite Hdata.
      * destruct (hd !! t) as [data'|]; [|done].
        destruct (find _ data'); [|done]. by apply lookup_insert_ne.
  - assert (t = ticker) as -> by (destruct Htr; [done | contradiction]).
    destruct (hd !! ticker) as [data|]; simpl; [|done].
    destruct (find _ data) as [b|]; simpl; [|done].
    apply lookup_insert_eq.
  - assert (t <> ticker) as Hne by (intros ->; apply Htr; by left).
    destruct (hd !! t) as [data'|]; [|done].
    destruct (find _ data'); [|done]. by apply lookup_insert_ne.
Qed.

(** X2. The day's price table holds a close for a ticker exactly when the
    ticker is configured and its series has a bar dated that day; the price
    is the close of the first such bar.  A ticker without a bar that day
    has no entry. *)
Theorem day_prices_are_todays_closes (s : Simulator) (date ticker : string) :
  dayPrices s date !! ticker
  = if in_dec String.string_dec ticker (tickers (config s))
    then
      match historicalData s !! ticker with
      | Some data =>
          option_map bar_close
            (find (fun d => String.eqb (bar_date d) date) data)
      | None => None
      end
    else None.
Proof.
  unfold dayPrices. rewrite dayPrices_fold_lookup.
  destruct (in_dec _ _ _); [|done].
  destruct (historicalData s !! ticker) as [data|]; [|done].
  by destruct (find _ data).
Qed.

(** ** The lookback window *)

Lemma findIndex_none {A} (p : A -> bool) (l : list A) :
  Forall (fun x => p x = false) l -> findIndex p l = None.
Proof.
  induction 1 as [|x r Hx _ IH]; simpl; [done|]. by rewrite Hx, IH.
Qed.

(** X3. The lookback window of a ticker is all or nothing.  It is empty
    when the ticker has no series or no bar dated today, and when fewer
    than [days] bars end at today's bar; otherwise it is exactly the closes
    of the [days] consecutive bars that end at the first bar dated today,
    oldest first. *)
Theorem lookback_window_is_all_or_nothing
  (s : Simulator) (ticker date : string) (days : nat) :
  (length (getRecentPrices s ticker date days) = days
   \/ getRecentPrices s ticker date days = [])
  /\ (historicalData s !! ticker = None -> getRecentPrices s ticker date days = [])
  /\ (forall data,
        historicalData s !! ticker = Some data ->
        Forall (fun d => bar_date d <> date) data ->
        getRecentPrices s ticker date days = [])
  /\ (forall before today after,
        historicalData s !! ticker = Some (before ++ today :: after) ->
        bar_date today = date ->
        Forall (fun d => bar_date d <> date) before ->
        (length before + 1 < days -> getRecentPrices s ticker date days = [])
        /\ (days <= length before + 1 ->
            getRecentPrices s ticker date days
            = map bar_close
                (drop (length before + 1 - days) (before ++ [today])))).
Proof.
  split; [apply getRecentPrices_length|]. split; [|split].
  - intros Hnone. unfold getRecentPrices. by rewrite Hnone.
  - intros data Hdata Hnot. unfold getRecentPrices. rewrite Hdata. simpl.
    rewrite findIndex_none; [done|].
    eapply Forall_impl; [exact Hnot|]. simpl. intros d Hd.
    by apply String.eqb_neq.
  - intros before today after Hdata Htoday Hbefore.
    rewrite (getRecentPrices_window s ticker date days before after today
               Hdata Htoday Hbefore).
    split; intros Hdays.
    + by rewrite (proj2 (Nat.ltb_lt _ _) Hdays).
    + by rewrite (proj2 (Nat.ltb_ge _ _) Hdays).
Qed.

Lemma lookback_window_is_all_or_nothing_witness :
  getRecentPrices Sample.marked "MSFT" "2023-01-03" 2 = []
  /\ getRecentPrices Sample.marked "AAPL" "2023-02-01" 2 = []
  /\ getRecentPrices Sample.marked "AAPL" "2023-01-02" 2 = []
  /\ getRecentPrices Sample.marked "AAPL" "2023-01-03" 2 = [ofZ 300; ofZ 100].
Proof.
  destruct (lookback_window_is_all_or_nothing Sample.marked "MSFT"
              "2023-01-03" 2) as (_ & Hnone & _).
  destruct (lookback_window_is_all_or_nothing Sample.marked "AAPL"
              "2023-02-01" 2) as (_ & _ & Habsent & _).
  destruct (lookback_window_is_all_or_nothing Sample.marked "AAPL"
              "2023-01-02" 2) as (_ & _ & _ & Hfirst).
  destruct (lookback_window_is_all_or_nothing Sample.marked "AAPL"
              "2023-01-03" 2) as (_ & _ & _ & Hsecond).
  split; [apply Hnone; reflexivity|].
  split.
  { apply (Habsent Sample.crashBars); [reflexivity|].
    repeat constructor; discriminate. }
  split.
  - apply (Hfirst [] (Sample.bar "2023-01-02" 300)
             [Sample.bar "2023-01-03" 100; Sample.bar "2023-01-04" 100]);
      [reflexivity | reflexivity | constructor | simpl; lia].
  - destruct (Hsecond [Sample.bar "2023-01-02" 300]
                (Sample.bar "2023-01-03" 100) [Sample.bar "2023-01-04" 100])
      as [_ Hfull];
      [reflexivity | reflexivity | repeat constructor; discriminate |].
    rewrite Hfull by (simpl; lia). reflexivity.
Defined.

(** ** Equal-weight and mean-reversion signals *)

Lemma rebalance_needs_price (s : Simulator) (prices : gmap string number)
  (ticker : string) :
  prices !! ticker = None -> rebalanceSignal s prices ticker = [].
Proof.
  intros Hnone. unfold rebalanceSignal. rewrite Hnone. simpl toNumber.
  destruct (orZero (obj_get ticker (assets (portfolio s)))),
    (totalValue (portfolio s)),
    (div (ofZ 1) (ofNat (length (tickers (config s))))); reflexivity.
Qed.

(** X4. The equal-weight strategy.  On day 0 it emits one BUY per
    configured ticker, in configuration order, each with weight one over
    the number of tickers.  On a later day whose index is not a multiple of
    20 it emits nothing.  On a later multiple of 20 it emits a signal for a
    ticker exactly when the ticker's share of the total value differs from
    the target weight by more than 0.05: SELL if the share is above the
    target, BUY otherwise; a ticker without a price that day gets no
    signal. *)
Theorem equal_weight_signal_rule
  (s : Simulator) (date : string) (dayIndex : nat) (prices : gmap string number) :
  strategy (config s) = "equal-weight" ->
  let signals := generateSignals s date dayIndex prices in
  let target := div (ofZ 1) (ofNat (length (tickers (config s)))) in
  let share ticker :=
    div (mul (orZero (obj_get ticker (assets (portfolio s))))
           (toNumber (prices !! ticker)))
      (totalValue (portfolio s)) in
  (dayIndex = 0 ->
   signals
   = map (fun ticker =>
            mkSignal ticker BUY (Some target) "Initial equal weight allocation")
       (tickers (config s)))
  /\ (dayIndex mod 20 <> 0 -> signals = [])
  /\ (dayIndex <> 0 -> dayIndex mod 20 = 0 ->
      forall signal,
        In signal signals <->
        exists ticker,
          In ticker (tickers (config s))
          /\ gt (abs (sub (share ticker) target)) (dec 5 100) = true
          /\ signal
             = mkSignal ticker (if gt (share ticker) target then SELL else BUY)
                 (Some target) "Rebalancing to equal weights")
  /\ (dayIndex <> 0 ->
      forall signal,
        In signal signals -> prices !! sig_ticker signal <> None).
Proof.
  intros Hstrategy signals target share.
  assert (signals
          = if dayIndex =? 0
            then map (fun ticker =>
                        mkSignal ticker BUY (Some target)
                          "Initial equal weight allocation")
                   (tickers (config s))
            else if dayIndex mod 20 =? 0
                 then flat_map (rebalanceSignal s prices) (tickers (config s))
                 else []) as Hsignals.
  { subst signals. unfold generateSignals. by rewrite Hstrategy. }
  rewrite Hsignals. split; [|split; [|split]].
  - intros ->. reflexivity.
  - intros Hmod.
    destruct (dayIndex =? 0) eqn:Hzero.
    + apply Nat.eqb_eq in Hzero. subst dayIndex. by destruct Hmod.
    + by rewrite (proj2 (Nat.eqb_neq _ _) Hmod).
  - intros Hday Hmod signal.
    rewrite (proj2 (Nat.eqb_neq _ _) Hday), (proj2 (Nat.eqb_eq _ _) Hmod).
    rewrite in_flat_map. split.
    + intros (ticker & Hticker & Hin). exists ticker. split; [done|].
      unfold rebalanceSignal in Hin. fold target in Hin.
      change (div _ (totalValue (portfolio s))) with (share ticker) in Hin.
      destruct (gt (abs (sub (share ticker) target)) (dec 5 100)) eqn:Hfar;
        [|destruct Hin].
      destruct Hin as [<- | []]. done.
    + intros (ticker & Hticker & Hfar & ->). exists ticker. split; [done|].
      unfold rebalanceSignal. fold target.
      change (div _ (totalValue (portfolio s))) with (share ticker).
      rewrite Hfar. by left.
  - intros Hday signal.
    rewrite (proj2 (Nat.eqb_neq _ _) Hday).
    destruct (dayIndex mod 20 =? 0); [|intros []].
    rewrite in_flat_map. intros (ticker & _ & Hin) Hnone.
    assert (sig_ticker signal = ticker) as Hsame.
    { unfold rebalanceSignal in Hin. destruct (gt (abs _) _); [|destruct Hin].
      by destruct Hin as [<- | []]. }
    rewrite Hsame in Hnone.
    by rewrite (rebalance_needs_price s prices ticker Hnone) in Hin.
Qed.

Lemma equal_weight_signal_rule_witness :
  strategy (config Sample.marked) = "equal-weight"
  /\ generateSignals Sample.marked "2023-01-02" 0 ∅
     = [mkSignal "AAPL" BUY (Some (ofZ 1)) "Initial equal weight allocation"]
  /\ generateSignals Sample.marked "2023-01-03" 7 ∅ = []
  /\ In (mkSignal "AAPL" SELL (Some (ofZ 1)) "Rebalancing to equal weights")
       (generateSignals Sample.marked "2023-03-01" 40 {[ "AAPL" := ofZ 200 ]}).
Proof.
  split; [reflexivity|].
  destruct (equal_weight_signal_rule Sample.marked "2023-01-02" 0 ∅ eq_refl)
    as (Hfirst & _).
  destruct (equal_weight_signal_rule Sample.marked "2023-01-03" 7 ∅ eq_refl)
    as (_ & Hidle & _).
  destruct (equal_weight_signal_rule Sample.marked "2023-03-01" 40
              {[ "AAPL" := ofZ 200 ]} eq_refl) as (_ & _ & Hrebalance & _).
  split; [rewrite Hfirst; reflexivity|].
  split; [apply Hidle; discriminate|].
  apply Hrebalance; [discriminate | reflexivity|].
  exists "AAPL". split; [simpl; auto|]. split; reflexivity.
Defined.

Lemma meanReversionSignal_cases (s : Simulator) (date ticker : string)
  (prices : gmap string number) :
  let recent := getRecentPrices s ticker date 20 in
  let average := div (fold_left add recent zero) (ofNat (length recent)) in
  let deviation := div (sub (toNumber (prices !! ticker)) average) average in
  let held := obj_has ticker (assets (portfolio s)) in
  (length recent = 20 /\ lt deviation (dec (-1) 10) = true /\ held = false
   /\ meanReversionSignal s date ticker prices
      = [ mkSignal ticker BUY (Some (dec 2 10))
            ("Oversold: " +:+ toFixed1 (mul deviation (ofZ 100))
             +:+ "% below average") ])
  \/ (length recent = 20 /\ gt deviation (dec 1 10) = true /\ held = true
      /\ meanReversionSignal s date ticker prices
         = [ mkSignal ticker SELL None
               ("Overbought: " +:+ toFixed1 (mul deviation (ofZ 100))
                +:+ "% above average") ])
  \/ ((length recent <> 20
       \/ (lt deviation (dec (-1) 10) && negb held = false
           /\ gt deviation (dec 1 10) && held = false))
      /\ meanReversionSignal s date ticker prices = []).
Proof.
  intros recent average deviation held. unfold meanReversionSignal.
  fold recent. fold average. fold deviation. fold held.
  destruct (getRecentPrices_length s ticker date 20) as [Hlen | Hnil];
    fold recent in Hlen || fold recent in Hnil.
  - rewrite Hlen. simpl (20 <=? 20).
    destruct (lt deviation (dec (-1) 10)) eqn:Hlow, held eqn:Hheld,
      (gt deviation (dec 1 10)) eqn:Hhigh; cbn [andb negb]; auto 10.
  - rewrite Hnil. simpl. right. right. split; [left; discriminate | done].
Qed.

(** X5. The mean-reversion strategy.  No signal is emitted before day index
    20, and from then on only for configured tickers whose trailing window
    holds exactly 20 closes.  With [deviation = (close - mean) / mean] for
    today's close and the mean of the window, the BUY signal of a ticker
    (weight 0.2) is emitted exactly when [deviation < -0.1] and the ticker
    is not held, its SELL signal exactly when [deviation > 0.1] and the
    ticker is held, and nothing else is emitted. *)
Theorem mean_reversion_signal_rule
  (s : Simulator) (date : string) (dayIndex : nat) (prices : gmap string number) :
  strategy (config s) = "mean-reversion" ->
  let signals := generateSignals s date dayIndex prices in
  let window ticker := getRecentPrices s ticker date 20 in
  let mean ticker :=
    div (fold_left add (window ticker) zero) (ofNat (length (window ticker))) in
  let deviation ticker :=
    div (sub (toNumber (prices !! ticker)) (mean ticker)) (mean ticker) in
  let held ticker := obj_has ticker (assets (portfolio s)) in
  let buy ticker :=
    mkSignal ticker BUY (Some (dec 2 10))
      ("Oversold: " +:+ toFixed1 (mul (deviation ticker) (ofZ 100))
       +:+ "% below average") in
  let sell ticker :=
    mkSignal ticker SELL None
      ("Overbought: " +:+ toFixed1 (mul (deviation ticker) (ofZ 100))
       +:+ "% above average") in
  (dayIndex < 20 -> signals = [])
  /\ (forall signal, In signal signals ->
        20 <= dayIndex
        /\ In (sig_ticker signal) (tickers (config s))
        /\ length (window (sig_ticker signal)) = 20
        /\ (signal = buy (sig_ticker signal)
            \/ signal = sell (sig_ticker signal)))
  /\ (forall ticker,
        In (buy ticker) signals <->
        20 <= dayIndex /\ In ticker (tickers (config s))
        /\ length (window ticker) = 20
        /\ lt (deviation ticker) (dec (-1) 10) = true /\ held ticker = false)
  /\ (forall ticker,
        In (sell ticker) signals <->
        20 <= dayIndex /\ In ticker (tickers (config s))
        /\ length (window ticker) = 20
        /\ gt (deviation ticker) (dec 1 10) = true /\ held ticker = true).
Proof.
  intros Hstrategy signals window mean deviation held buy sell.
  assert (signals
          = if 20 <=? dayIndex
            then flat_map (fun ticker => meanReversionSignal s date ticker prices)
                   (tickers (config s))
            else []) as Hsignals.
  { subst signals. unfold generateSignals. by rewrite Hstrategy. }
  assert (forall ticker signal,
            In signal (meanReversionSignal s date ticker prices) <->
            length (window ticker) = 20
            /\ ((lt (deviation ticker) (dec (-1) 10) = true
                 /\ held ticker = false /\ signal = buy ticker)
                \/ (gt (deviation ticker) (dec 1 10) = true
                    /\ held ticker = true /\ signal = sell ticker)))
    as Hone.
  { intros ticker signal.
    pose proof (meanReversionSignal_cases s date ticker prices) as Hcases.
    cbv zeta in Hcases.
    subst buy sell held deviation mean window. cbv beta.
    destruct Hcases
      as [(Hlen & Hlow & Hheld & Hsig) | [(Hlen & Hhigh & Hheld & Hsig)
                                        | ([Hlen | [Hnb Hns]] & Hsig)]];
      rewrite Hsig; cbn [In].
    - split.
      + intros [<- | []]. auto.
      + intros (_ & [(_ & _ & ->) | (_ & Hh & _)]); [by left | congruence].
    - split.
      + intros [<- | []]. auto 6.
      + intros (_ & [(_ & Hh & _) | (_ & _ & ->)]); [congruence | by left].
    - split; [done | intros [? _]; done].
    - split; [done|].
      intros (_ & [(Hlow & Hheld & _) | (Hhigh & Hheld & _)]).
      + by rewrite Hlow, Hheld in Hnb.
      + by rewrite Hhigh, Hheld in Hns. }
  assert (forall signal,
            In signal signals <->
            20 <= dayIndex
            /\ exists ticker,
                 In ticker (tickers (config s))
                 /\ In signal (meanReversionSignal s date ticker prices))
    as Hall.
  { intros signal. rewrite Hsignals.
    destruct (20 <=? dayIndex) eqn:Hday.
    - apply Nat.leb_le in Hday. rewrite in_flat_map. tauto.
    - apply Nat.leb_gt in Hday. simpl. split; [done | lia]. }
  split; [|split; [|split]].
  - intros Hearly. rewrite Hsignals.
    by rewrite (proj2 (Nat.leb_gt 20 dayIndex) Hearly).
  - intros signal Hin. apply Hall in Hin as (Hday & ticker & Hticker & Hin).
    apply Hone in Hin as (Hlen & [(_ & _ & ->) | (_ & _ & ->)]); simpl; auto.
  - intros ticker. rewrite Hall. split.
    + intros (Hday & ticker' & Hticker & Hin).
      apply Hone in Hin as (Hlen & [(Hlow & Hheld & E) | (_ & _ & E)]);
        [|discriminate E].
      assert (ticker' = ticker) as -> by (injection E; auto). auto.
    + intros (Hday & Hticker & Hlen & Hlow & Hheld).
      split; [done|]. exists ticker. split; [done|]. apply Hone. auto.
  - intros ticker. rewrite Hall. split.
    + intros (Hday & ticker' & Hticker & Hin).
      apply Hone in Hin as (Hlen & [(_ & _ & E) | (Hhigh & Hheld & E)]);
        [discriminate E|].
      assert (ticker' = ticker) as -> by (injection E; auto). auto.
    + intros (Hday & Hticker & Hlen & Hhigh & Hheld).
      split; [done|]. exists ticker. split; [done|]. apply Hone. auto 6.
Qed.

Lemma mean_reversion_signal_rule_witness :
  strategy (config Scenario.dipping) = "mean-reversion"
  /\ In (mkSignal "AAPL" BUY (Some (dec 2 10)) "Oversold: -24.1% below average")
       (generateSignals Scenario.dipping "2023-03-21" 20 {[ "AAPL" := ofZ 90 ]}).
Proof.
  split; [reflexivity|].
  destruct (mean_reversion_signal_rule Scenario.dipping "2023-03-21" 20
              {[ "AAPL" := ofZ 90 ]} eq_refl) as (_ & _ & Hbuy & _).
  apply (Hbuy "AAPL").
  repeat split; vm_compute; auto.
Defined.

(** ** Days without signals *)

Lemma executeTrade_dates (now : nat -> N) (signal : Signal) (date : string)
  (price : option number) (s : Simulator) :
  dates (portfolio (executeTrade now signal date price s)) = dates (portfolio s)
  /\ historicalData (executeTrade now signal date price s) = historicalData s
  /\ console (executeTrade now signal date price s) = console s.
Proof.
  unfold executeTrade.
  destruct (sig_action signal); [destruct (_ && _) | destruct (gt _ _)]; done.
Qed.

Lemma applyRiskControls_keeps (date : string) (s : Simulator) :
  let s' := applyRiskControls date s in
  trades s' = trades s
  /\ clockReads s' = clockReads s
  /\ cash (portfolio s') = cash (portfolio s)
  /\ values (portfolio s') = values (portfolio s)
  /\ dailyReturns (portfolio s') = dailyReturns (portfolio s)
  /\ dates (portfolio s') = dates (portfolio s)
  /\ config s' = config s
  /\ historicalData s' = historicalData s
  /\ (assets (portfolio s') = assets (portfolio s)
      \/ assets (portfolio s') = []).
Proof.
  unfold applyRiskControls. cbv zeta.
  destruct (gt (calculateCurrentDrawdown s) _);
    destruct (gt (currentLossOf _) _); simpl; auto 12.
Qed.

(** X6. The risk check never records a trade and never moves cash: it
    leaves the trade log, the clock, the cash, the valuation history, the
    returns and the recorded dates as they are, and either keeps the
    positions or clears them all.  A forced liquidation therefore shows in
    the ledger only as emptied positions and a total value reset to the
    cash. *)
Theorem risk_check_records_no_trade (date : string) (s : Simulator) :
  let s' := applyRiskControls date s in
  trades s' = trades s
  /\ clockReads s' = clockReads s
  /\ cash (portfolio s') = cash (portfolio s)
  /\ values (portfolio s') = values (portfolio s)
  /\ dailyReturns (portfolio s') = dailyReturns (portfolio s)
  /\ dates (portfolio s') = dates (portfolio s)
  /\ (s' = s
      \/ (assets (portfolio s') = []
          /\ totalValue (portfolio s') = cash (portfolio s)
          /\ length (console s) < length (console s'))).
Proof.
  destruct (applyRiskControls_keeps date s)
    as (Ht & Hn & Hc & Hv & Hr & Hd & _).
  cbv zeta. repeat (split; [assumption|]).
  destruct (applyRiskControls_cases date s) as [E | (Hlog & Ha & _ & Htv)];
    [by left | right; auto].
Qed.

Lemma simulateDay_without_signals (now : nat -> N) (date : string)
  (dayIndex : nat) (s : Simulator) :
  generateSignals s date dayIndex (dayPrices s date) = [] ->
  simulateDay now date dayIndex s
  = updatePortfolioValue date (dayPrices s date) s.
Proof. intros Hnone. unfold simulateDay. by rewrite Hnone. Qed.

(** A stretch of days on which the strategy is silent leaves an all-cash
    ledger flat: no trade, the cash untouched, every valuation equal to the
    cash. *)
Lemma runDays_without_signals (now : nat -> N) (tradingDates : list string)
  (dayIndex : nat) (s : Simulator) :
  (forall s' date i prices,
      config s' = config s ->
      dayIndex <= i < dayIndex + length tradingDates ->
      generateSignals s' date i prices = []) ->
  assets (portfolio s) = [] ->
  let r := runDays now tradingDates dayIndex s in
  trades r = trades s
  /\ cash (portfolio r) = cash (portfolio s)
  /\ assets (portfolio r) = []
  /\ values (portfolio r)
     = values (portfolio s) ++ replicate (length tradingDates) (cash (portfolio s)).
Proof.
  revert dayIndex s.
  induction tradingDates as [|date rest IH]; intros dayIndex s Hsilent Hcash;
    simpl.
  - by rewrite app_nil_r.
  - rewrite simulateDay_without_signals
      by (apply Hsilent; [done | simpl; lia]).
    set (s1 := updatePortfolioValue date (dayPrices s date) s).
    destruct (applyRiskControls_keeps date s1)
      as (Ht & _ & Hc & Hv & _ & _ & Hcfg & _ & Ha).
    assert (assets (portfolio (applyRiskControls date s1)) = []) as Hflat
      by (destruct Ha as [-> | ->]; [exact Hcash | done]).
    destruct (IH (S dayIndex) (applyRiskControls date s1)) as (Ht' & Hc' & Ha' & Hv').
    + intros s' d i prices Hcfg' Hi. apply Hsilent; [|simpl; lia].
      by rewrite Hcfg', Hcfg.
    + exact Hflat.
    + rewrite Ht', Hc', Ha', Hv', Ht, Hc, Hv.
      subst s1. unfold updatePortfolioValue, withPortfolio, markToMarket.
      cbn [portfolio values cash assets trades]. rewrite Hcash. simpl.
      by rewrite <- app_assoc.
Qed.

Lemma runSimulation_unfold
  (sqrt : number -> number)
  (fetch : string -> string -> string -> option (list HistoricalPrice))
  (now : nat -> N) (cfg : SimulationConfig) (r : SimulationResult) :
  runSimulation sqrt fetch now cfg = Some r ->
  exists loaded,
    loadHistoricalData fetch (constructor cfg) = Some loaded
    /\ r = {| res_portfolio :=
                portfolio (runDays now (getTradingDates loaded) 0 loaded);
              res_trades := trades (runDays now (getTradingDates loaded) 0 loaded);
              res_metrics :=
                calculateMetrics sqrt
                  (runDays now (getTradingDates loaded) 0 loaded);
              res_chartData :=
                generateChartData
                  (runDays now (getTradingDates loaded) 0 loaded) |}.
Proof.
  unfold runSimulation, simulate.
  destruct (loadHistoricalData fetch (constructor cfg)) as [loaded|];
    [|discriminate].
  intros [= <-]. eauto.
Qed.

(** X7. A strategy name other than the three the engine knows never
    trades: every completed run returns an empty trade log, no position,
    the initial capital in cash, and a valuation history in which every
    entry is the initial capital. *)
Theorem unknown_strategy_never_trades
  (sqrt : number -> number)
  (fetch : string -> string -> string -> option (list HistoricalPrice))
  (now : nat -> N) (cfg : SimulationConfig) (r : SimulationResult) :
  strategy cfg <> "equal-weight" ->
  strategy cfg <> "momentum" ->
  strategy cfg <> "mean-reversion" ->
  runSimulation sqrt fetch now cfg = Some r ->
  res_trades r = []
  /\ assets (res_portfolio r) = []
  /\ cash (res_portfolio r) = initialCapital cfg
  /\ Forall (fun v => v = initialCapital cfg) (values (res_portfolio r)).
Proof.
  intros He Hm Hr Hrun.
  apply runSimulation_unfold in Hrun as (loaded & Hload & ->).
  destruct (loadHistoricalData_keeps fetch _ _ Hload) as (Hcfg & Hp & Ht & _).
  cbn [res_trades res_portfolio].
  destruct (runDays_without_signals now (getTradingDates loaded) 0 loaded)
    as (Ht' & Hc' & Ha' & Hv').
  - intros s' date i prices Hcfg' _. unfold generateSignals.
    rewrite Hcfg', Hcfg. cbn [config constructor].
    by rewrite (proj2 (String.eqb_neq _ _) He),
      (proj2 (String.eqb_neq _ _) Hm), (proj2 (String.eqb_neq _ _) Hr).
  - by rewrite Hp.
  - rewrite Ht', Hc', Ha', Hv', Ht, Hp. cbn.
    repeat split. constructor; [done|].
    apply Forall_forall. intros v Hv.
    by apply elem_of_replicate in Hv as [-> _].
Qed.

Lemma unknown_strategy_never_trades_witness :
  option_map res_trades
    (runSimulation Sample.sqrt64 Sample.crashSource Sample.clockA
       Scenario.idleConfig) = Some []
  /\ option_map (fun r => values (res_portfolio r))
       (runSimulation Sample.sqrt64 Sample.crashSource Sample.clockA
          Scenario.idleConfig)
     = Some [ofZ 1000; ofZ 1000; ofZ 1000; ofZ 1000].
Proof.
  destruct (runSimulation Sample.sqrt64 Sample.crashSource Sample.clockA
              Scenario.idleConfig) as [r|] eqn:Hrun;
    [|vm_compute in Hrun; discriminate Hrun].
  destruct (unknown_strategy_never_trades Sample.sqrt64 Sample.crashSource
              Sample.clockA Scenario.idleConfig r) as (Ht & _ & _ & _);
    [discriminate | discriminate | discriminate | exact Hrun |].
  simpl. rewrite Ht. split; [reflexivity|].
  vm_compute in Hrun. injection Hrun as <-. reflexivity.
Defined.

Lemma tradeLoop_keeps (now : nat -> N) (date : string)
  (prices : gmap string number) (signals : list Signal) (s : Simulator) :
  let s' :=
    fold_left
      (fun st signal => executeTrade now signal date (prices !! sig_ticker signal) st)
      signals s in
  values (portfolio s') = values (portfolio s)
  /\ dailyReturns (portfolio s') = dailyReturns (portfolio s)
  /\ dates (portfolio s') = dates (portfolio s)
  /\ totalValue (portfolio s') = totalValue (portfolio s)
  /\ config s' = config s
  /\ historicalData s' = historicalData s
  /\ console s' = console s.
Proof.
  revert s. induction signals as [|signal rest IH]; intros s; simpl; [done|].
  destruct (IH (executeTrade now signal date (prices !! sig_ticker signal) s))
    as (-> & -> & -> & -> & -> & -> & ->).
  unfold executeTrade.
  destruct (sig_action signal); [destruct (_ && _) | destruct (gt _ _)]; done.
Qed.

Lemma simulateDay_keeps (now : nat -> N) (date : string) (dayIndex : nat)
  (s : Simulator) :
  let s' := simulateDay now date dayIndex s in
  dates (portfolio s') = dates (portfolio s) ++ [date]
  /\ length (values (portfolio s')) = S (length (values (portfolio s)))
  /\ config s' = config s
  /\ historicalData s' = historicalData s
  /\ console s' = console s.
Proof.
  unfold simulateDay. cbv zeta.
  destruct (tradeLoop_keeps now date (dayPrices s date)
              (generateSignals s date dayIndex (dayPrices s date)) s)
    as (Hv & _ & Hd & _ & Hc & Hh & Ho).
  unfold updatePortfolioValue, withPortfolio. cbv zeta.
  cbn [portfolio dates values config historicalData console].
  rewrite Hv, Hd, Hc, Hh, Ho, length_app. simpl. repeat split; lia.
Qed.

Lemma runDays_keeps (now : nat -> N) (tradingDates : list string)
  (dayIndex : nat) (s : Simulator) :
  let r := runDays now tradingDates dayIndex s in
  dates (portfolio r) = dates (portfolio s) ++ tradingDates
  /\ length (values (portfolio r))
     = length (values (portfolio s)) + length tradingDates
  /\ config r = config s
  /\ historicalData r = historicalData s.
Proof.
  revert dayIndex s.
  induction tradingDates as [|date rest IH]; intros dayIndex s; simpl.
  - rewrite app_nil_r. repeat split; lia.
  - destruct (IH (S dayIndex)
                (applyRiskControls date (simulateDay now date dayIndex s)))
      as (-> & -> & -> & ->).
    destruct (applyRiskControls_keeps date (simulateDay now date dayIndex s))
      as (_ & _ & _ & -> & _ & -> & -> & -> & _).
    destruct (simulateDay_keeps now date dayIndex s) as (-> & -> & -> & -> & _).
    rewrite <- app_assoc. repeat split; simpl; lia.
Qed.

(** X8. The momentum and mean-reversion strategies need twenty earlier
    days: a completed run over at most 20 trading dates returns an empty
    trade log, no position and the initial capital in cash. *)
Theorem lookback_strategies_wait_twenty_days
  (sqrt : number -> number)
  (fetch : string -> string -> string -> option (list HistoricalPrice))
  (now : nat -> N) (cfg : SimulationConfig) (r : SimulationResult) :
  strategy cfg = "momentum" \/ strategy cfg = "mean-reversion" ->
  runSimulation sqrt fetch now cfg = Some r ->
  length (dates (res_portfolio r)) <= 20 ->
  res_trades r = []
  /\ assets (res_portfolio r) = []
  /\ cash (res_portfolio r) = initialCapital cfg.
Proof.
  intros Hstrategy Hrun Hshort.
  apply runSimulation_unfold in Hrun as (loaded & Hload & ->).
  destruct (loadHistoricalData_keeps fetch _ _ Hload) as (Hcfg & Hp & Ht & _).
  cbn [res_trades res_portfolio] in *.
  assert (length (getTradingDates loaded) <= 20) as Hdays.
  { destruct (runDays_keeps now (getTradingDates loaded) 0 loaded)
      as (Hd & _).
    rewrite Hd, Hp, length_app in Hshort. simpl in Hshort. lia. }
  destruct (runDays_without_signals now (getTradingDates loaded) 0 loaded)
    as (Ht' & Hc' & Ha' & _).
  - intros s' date i prices Hcfg' Hi. unfold generateSignals.
    rewrite Hcfg', Hcfg. cbn [config constructor].
    assert ((20 <=? i) = false) as Hearly by (apply Nat.leb_gt; lia).
    rewrite Hearly. destruct Hstrategy as [-> | ->]; reflexivity.
  - by rewrite Hp.
  - by rewrite Ht', Hc', Ha', Ht, Hp.
Qed.

Lemma lookback_strategies_wait_twenty_days_witness :
  strategy Scenario.shortMomentumConfig = "momentum"
  /\ option_map res_trades
       (runSimulation Sample.sqrt64 Sample.crashSource Sample.clockA
          Scenario.shortMomentumConfig) = Some [].
Proof.
  split; [reflexivity|].
  destruct (runSimulation Sample.sqrt64 Sample.crashSource Sample.clockA
              Scenario.shortMomentumConfig) as [r|] eqn:Hrun;
    [|vm_compute in Hrun; discriminate Hrun].
  destruct (lookback_strategies_wait_twenty_days Sample.sqrt64
              Sample.crashSource Sample.clockA Scenario.shortMomentumConfig r)
    as (Ht & _); [by left | exact Hrun | | simpl; by rewrite Ht].
  vm_compute in Hrun. injection Hrun as <-. simpl. lia.
Defined.

(** ** The ledger of a completed run *)

(** X9. The ledger and the chart of a completed run follow the trading
    calendar.  The recorded dates are the trading dates in order; the
    valuation history starts at the initial capital and has one entry per
    trading date after it, the returns one per trading date; and the chart
    has one point per trading date, carrying that date, the valuation
    recorded for it (never an undefined value) and the benchmark
    [initialCapital * (1 + 0.0003 * index)]. *)
Theorem run_ledger_follows_calendar
  (sqrt : number -> number)
  (fetch : string -> string -> string -> option (list HistoricalPrice))
  (now : nat -> N) (cfg : SimulationConfig) (r : SimulationResult) :
  runSimulation sqrt fetch now cfg = Some r ->
  exists loaded,
    loadHistoricalData fetch (constructor cfg) = Some loaded
    /\ dates (res_portfolio r) = getTradingDates loaded
    /\ head (values (res_portfolio r)) = Some (initialCapital cfg)
    /\ length (values (res_portfolio r)) = S (length (dates (res_portfolio r)))
    /\ length (dailyReturns (res_portfolio r)) = length (dates (res_portfolio r))
    /\ length (res_chartData r) = length (dates (res_portfolio r))
    /\ (forall index date,
          dates (res_portfolio r) !! index = Some date ->
          exists point value,
            res_chartData r !! index = Some point
            /\ values (res_portfolio r) !! S index = Some value
            /\ pt_date point = date
            /\ pt_value point = Some value
            /\ pt_benchmark point
               = mul (initialCapital cfg)
                   (add (ofZ 1) (mul (dec 3 10000) (ofNat index)))).
Proof.
  intros Hrun.
  apply runSimulation_unfold in Hrun as (loaded & Hload & ->).
  exists loaded. split; [exact Hload|].
  destruct (loadHistoricalData_keeps fetch _ _ Hload) as (Hcfg & Hp & _).
  cbn [res_portfolio res_chartData].
  set (final := runDays now (getTradingDates loaded) 0 loaded).
  destruct (runDays_keeps now (getTradingDates loaded) 0 loaded)
    as (Hd & Hv & Hc & _). fold final in Hd, Hv, Hc.
  destruct (runDays_history now (getTradingDates loaded) 0 loaded
              (initialCapital cfg)) as [Hseed Hlen]; [by rewrite Hp.. |].
  fold final in Hseed, Hlen.
  rewrite Hp in Hd, Hv. simpl in Hd, Hv.
  assert (length (values (portfolio final)) = S (length (dates (portfolio final))))
    as Hcount by (rewrite Hv, Hd; reflexivity).
  split; [exact Hd|]. split; [exact Hseed|]. split; [exact Hcount|].
  split; [lia|].
  split; [unfold generateChartData; by rewrite length_imap|].
  intros index date Hdate.
  assert (index < length (dates (portfolio final))) as Hindex
    by (eapply lookup_lt_Some; exact Hdate).
  destruct (lookup_lt_is_Some_2 (values (portfolio final)) (S index))
    as [value Hvalue]; [lia|].
  eexists _, value. unfold generateChartData.
  rewrite list_lookup_imap, Hdate. simpl.
  replace (index + 1) with (S index) by lia.
  rewrite Hvalue, Hc, Hcfg. done.
Qed.

Lemma run_ledger_follows_calendar_witness :
  exists r,
    runSimulation Sample.sqrt64 Sample.crashSource Sample.clockA
      Sample.crashConfig = Some r
    /\ dates (res_portfolio r) = ["2023-01-02"; "2023-01-03"; "2023-01-04"]
    /\ length (res_chartData r) = 3.
Proof.
  destruct (runSimulation Sample.sqrt64 Sample.crashSource Sample.clockA
              Sample.crashConfig) as [r|] eqn:Hrun;
    [|vm_compute in Hrun; discriminate Hrun].
  exists r. split; [reflexivity|].
  destruct (run_ledger_follows_calendar Sample.sqrt64 Sample.crashSource
              Sample.clockA Sample.crashConfig r Hrun)
    as (loaded & Hload & Hdates & _ & _ & _ & Hchart & _).
  rewrite Hchart, Hdates.
  vm_compute in Hload. injection Hload as <-. split; reflexivity.
Defined.

(** ** The trading calendar *)

Lemma existsb_eqb_In (x : string) (l : list string) :
  existsb (String.eqb x) l = true <-> In x l.
Proof.
  rewrite existsb_exists. split.
  - intros (y & Hin & Heq). apply String.eqb_eq in Heq. by subst.
  - intros Hin. exists x. by rewrite String.eqb_refl.
Qed.

Lemma setOf_spec (xs : list string) :
  NoDup (setOf xs) /\ (forall x, In x (setOf xs) <-> In x xs).
Proof.
  unfold setOf.
  assert (forall acc : list string,
            NoDup acc ->
            NoDup (fold_left
                     (fun acc x =>
                        if existsb (String.eqb x) acc then acc else acc ++ [x])
                     xs acc)
            /\ (forall x,
                  In x (fold_left
                          (fun acc x =>
                             if existsb (String.eqb x) acc then acc
                             else acc ++ [x])
                          xs acc)
                  <-> In x acc \/ In x xs)) as Hgen.
  { induction xs as [|y r IH]; intros acc Hacc; simpl.
    - split; [done | tauto].
    - destruct (existsb (String.eqb y) acc) eqn:Hseen.
      + destruct (IH acc Hacc) as [Hnd Hin]. split; [done|].
        intros x. rewrite Hin. apply existsb_eqb_In in Hseen.
        split; [tauto|]. intros [?|[<-|?]]; auto.
      + destruct (IH (acc ++ [y])) as [Hnd Hin].
        { apply NoDup_app. split; [done|]. split; [|apply NoDup_singleton].
          intros x Hx Hy. apply list_elem_of_In in Hx.
          apply list_elem_of_In in Hy. destruct Hy as [<- | []].
          apply existsb_eqb_In in Hx. congruence. }
        split; [done|]. intros x. rewrite Hin, in_app_iff. simpl. tauto. }
  destruct (Hgen [] NoDup_nil_2) as [Hnd Hin]. split; [done|].
  intros x. rewrite Hin. simpl. tauto.
Qed.

Lemma insertSorted_In (x y : string) (l : list string) :
  In y (insertSorted x l) <-> y = x \/ In y l.
Proof.
  induction l as [|z r IH]; simpl; [intuition congruence|].
  destruct (String.leb x z); simpl; [intuition congruence|].
  rewrite IH. intuition congruence.
Qed.

Lemma insertSorted_sorted (x : string) (l : list string) :
  Sorted (fun a b => String.leb a b = true) l ->
  Sorted (fun a b => String.leb a b = true) (insertSorted x l).
Proof.
  induction 1 as [|z r Hsorted IH Hhd]; simpl; [repeat constructor|].
  destruct (String.leb x z) eqn:Hle.
  - repeat constructor; done.
  - constructor; [done|].
    assert (String.leb z x = true) as Hzx
      by (destruct (String.leb_total x z); congruence).
    destruct Hhd as [|w r' Hzw]; simpl; [by constructor|].
    destruct (String.leb x w); by constructor.
Qed.

Lemma insertSorted_NoDup (x : string) (l : list string) :
  ~ In x l -> NoDup l -> NoDup (insertSorted x l).
Proof.
  induction l as [|z r IH]; simpl; intros Hx Hnd.
  - apply NoDup_singleton.
  - destruct (String.leb x z).
    + constructor; [|done]. rewrite list_elem_of_In. done.
    + apply NoDup_cons in Hnd as [Hz Hr]. constructor.
      * rewrite list_elem_of_In, insertSorted_In. rewrite list_elem_of_In in Hz.
        intros [-> | ?]; tauto.
      * apply IH; tauto.
Qed.

Lemma sortStrings_spec (l : list string) :
  NoDup l ->
  Sorted (fun a b => String.leb a b = true) (sortStrings l)
  /\ NoDup (sortStrings l)
  /\ (forall x, In x (sortStrings l) <-> In x l).
Proof.
  unfold sortStrings. induction l as [|y r IH]; intros Hnd; simpl.
  - repeat split; auto using NoDup_nil_2; tauto.
  - apply NoDup_cons in Hnd as [Hy Hr].
    destruct (IH Hr) as (Hs & Hn & Hin). split; [|split].
    + by apply insertSorted_sorted.
    + apply insertSorted_NoDup; [|done]. rewrite Hin.
      by rewrite list_elem_of_In in Hy.
    + intros x. rewrite insertSorted_In, Hin. intuition congruence.
Qed.

Lemma leb_distinct_ltb (a b : string) :
  String.leb a b = true -> a <> b -> String.ltb a b = true.
Proof.
  unfold String.leb, String.ltb. intros Hle Hne.
  destruct (String.compare a b) eqn:Hcmp; try done.
  by apply String.compare_eq_iff in Hcmp.
Qed.

(** X10. The trading calendar is the set of all bar dates in ascending
    order: a date is in it exactly when some loaded series has a bar with
    that date, no date occurs twice, and each date is strictly below the
    next in the order of the strings. *)
Theorem trading_dates_sorted_unique (s : Simulator) :
  (forall date,
      In date (getTradingDates s) <->
      exists ticker data bar,
        historicalData s !! ticker = Some data
        /\ In bar data /\ bar_date bar = date)
  /\ NoDup (getTradingDates s)
  /\ (forall index earlier later,
        getTradingDates s !! index = Some earlier ->
        getTradingDates s !! S index = Some later ->
        String.ltb earlier later = true).
Proof.
  unfold getTradingDates. cbv zeta.
  set (allDates :=
         map bar_date (concat (map snd (map_to_list (historicalData s))))).
  destruct (setOf_spec allDates) as [Hnd Hset].
  destruct (sortStrings_spec (setOf allDates) Hnd) as (Hsorted & Hnd' & Hin).
  split; [|split; [exact Hnd'|]].
  - intros date. rewrite Hin, Hset. subst allDates.
    rewrite in_map_iff. split.
    + intros (bar & Hdate & Hbar).
      apply in_concat in Hbar as (data & Hdata & Hbar).
      apply in_map_iff in Hdata as ([ticker data'] & <- & Hentry).
      apply list_elem_of_In, elem_of_map_to_list in Hentry.
      exists ticker, data', bar. done.
    + intros (ticker & data & bar & Hlookup & Hbar & Hdate).
      exists bar. split; [done|]. apply in_concat. exists data.
      split; [|done]. apply in_map_iff. exists (ticker, data).
      split; [done|]. by apply list_elem_of_In, elem_of_map_to_list.
  - revert Hsorted Hnd'.
    generalize (sortStrings (setOf allDates)) as l. clear.
    induction l as [|a r IH]; intros Hsorted Hnd index earlier later;
      [done|].
    apply Sorted_inv in Hsorted as [Hsorted Hhd].
    apply NoDup_cons in Hnd as [Ha Hr].
    destruct index as [|index]; simpl.
    + intros [= <-] Hlater. destruct r as [|b r']; [done|].
      simpl in Hlater. injection Hlater as <-.
      apply HdRel_inv in Hhd. apply leb_distinct_ltb; [done|].
      intros ->. apply Ha. by left.
    + by apply IH.
Qed.

Lemma trading_dates_sorted_unique_witness :
  getTradingDates Sample.marked = ["2023-01-02"; "2023-01-03"; "2023-01-04"]
  /\ String.ltb "2023-01-02" "2023-01-03" = true
  /\ In "2023-01-04" (getTradingDates Sample.marked).
Proof.
  destruct (trading_dates_sorted_unique Sample.marked) as (Hin & _ & Hasc).
  split; [reflexivity|]. split.
  - apply (Hasc 0); reflexivity.
  - apply Hin. exists "AAPL", Sample.crashBars, (Sample.bar "2023-01-04" 100).
    split; [reflexivity|]. split; [simpl; auto | reflexivity].
Defined.

(** ** The trade log *)

Lemma generated_signal_ticker (s : Simulator) (date : string) (dayIndex : nat)
  (prices : gmap string number) (signal : Signal) :
  In signal (generateSignals s date dayIndex prices) ->
  In (sig_ticker signal) (tickers (config s)).
Proof.
  unfold generateSignals. intros Hin.
  destruct (String.eqb (strategy (config s)) "equal-weight").
  { destruct (dayIndex =? 0).
    - by apply in_map_iff in Hin as (ticker & <- & Hticker).
    - destruct (dayIndex mod 20 =? 0); [|destruct Hin].
      apply in_flat_map in Hin as (ticker & Hticker & Hin).
      unfold rebalanceSignal in Hin.
      destruct (gt (abs _) _); [|destruct Hin].
      by destruct Hin as [<- | []]. }
  destruct (String.eqb (strategy (config s)) "momentum").
  { destruct (20 <=? dayIndex); [|destruct Hin].
    apply in_flat_map in Hin as (ticker & Hticker & Hin).
    unfold momentumSignal in Hin.
    destruct (20 <=? length _); [|destruct Hin].
    destruct (_ && _); [by destruct Hin as [<- | []]|].
    destruct (_ && _); [|destruct Hin].
    by destruct Hin as [<- | []]. }
  destruct (String.eqb (strategy (config s)) "mean-reversion");
    [|destruct Hin].
  destruct (20 <=? dayIndex); [|destruct Hin].
  apply in_flat_map in Hin as (ticker & Hticker & Hin).
  unfold meanReversionSignal in Hin.
  destruct (20 <=? length _); [|destruct Hin].
  destruct (_ && _); [by destruct Hin as [<- | []]|].
  destruct (_ && _); [|destruct Hin].
  by destruct Hin as [<- | []].
Qed.

(** What [executeTrade] does to the log: nothing, or one more trade, which
    takes the next clock reading. *)
Lemma executeTrade_log (now : nat -> N) (signal : Signal) (date : string)
  (price : option number) (s : Simulator) :
  let s' := executeTrade now signal date price s in
  (trades s' = trades s /\ clockReads s' = clockReads s)
  \/ (exists trade,
        trades s' = trades s ++ [trade]
        /\ clockReads s' = S (clockReads s)
        /\ trade_id trade = tradeId now date (sig_ticker signal) (clockReads s)
        /\ trade_date trade = date
        /\ trade_ticker trade = sig_ticker signal
        /\ trade_action trade = sig_action signal
        /\ trade_price trade = price
        /\ trade_reason trade = sig_reason signal
        /\ gt (trade_quantity trade) zero = true
        /\ trade_value trade = mul (trade_quantity trade) (toNumber price)).
Proof.
  unfold executeTrade.
  destruct (sig_action signal).
  - destruct (gt _ _) eqn:Hq; [|by left].
    destruct (le _ _); [|by left].
    right. eexists. simpl. repeat split; done.
  - destruct (gt _ _) eqn:Hq; [|by left].
    right. eexists. simpl. repeat split; done.
Qed.

(** The log invariant carried through a run, for trades from position
    [base] on. *)
Lemma tradeLoop_log (now : nat -> N) (date : string)
  (prices : gmap string number) (signals : list Signal) (s : Simulator)
  (P : nat -> Trade -> Prop) :
  clockReads s = length (trades s) ->
  (forall k t, trades s !! k = Some t -> P k t) ->
  (forall signal k t,
      In signal signals ->
      trade_id t = tradeId now date (sig_ticker signal) k ->
      trade_date t = date ->
      trade_ticker t = sig_ticker signal ->
      trade_price t = prices !! sig_ticker signal ->
      gt (trade_quantity t) zero = true ->
      trade_value t = mul (trade_quantity t) (toNumber (trade_price t)) ->
      P k t) ->
  let s' :=
    fold_left
      (fun st signal => executeTrade now signal date (prices !! sig_ticker signal) st)
      signals s in
  clockReads s' = length (trades s')
  /\ (forall k t, trades s' !! k = Some t -> P k t)
  /\ exists added, trades s' = trades s ++ added.
Proof.
  revert s. induction signals as [|signal rest IH]; intros s Hclock Hold Hnew;
    simpl.
  - split; [done|]. split; [done|]. exists []. by rewrite app_nil_r.
  - destruct (executeTrade_log now signal date (prices !! sig_ticker signal) s)
      as [[Ht Hn] | (trade & Ht & Hn & Hid & Hd & Htk & _ & Hp & _ & Hq & Hv)].
    + destruct (IH (executeTrade now signal date (prices !! sig_ticker signal) s))
        as (Hc' & HP' & added & Hadd).
      * by rewrite Hn, Ht.
      * intros k t. rewrite Ht. apply Hold.
      * intros sg k t Hin. apply Hnew. by right.
      * split; [done|]. split; [done|]. exists added. by rewrite Hadd, Ht.
    + destruct (IH (executeTrade now signal date (prices !! sig_ticker signal) s))
        as (Hc' & HP' & added & Hadd).
      * rewrite Hn, Ht, length_app. simpl. lia.
      * intros k t. rewrite Ht. intros Hk.
        apply lookup_app_Some in Hk as [Hk | [Hlen Hk]]; [by apply Hold|].
        destruct (k - length (trades s)) as [|n] eqn:Hdiff; [|done].
        injection Hk as <-.
        apply (Hnew signal); [by left | | done | done | done | done |].
        -- rewrite Hid. f_equal. lia.
        -- by rewrite Hp.
      * intros sg k t Hin. apply Hnew. by right.
      * split; [done|]. split; [done|]. exists ([trade] ++ added).
        by rewrite Hadd, Ht, <- app_assoc.
Qed.

(** X11. The trade log of a completed run is built by appending, one clock
    reading per trade: the trade at position [k] has the id
    [date-ticker-now(k)] of its own date and ticker, its date is a recorded
    trading date, its ticker is a configured ticker, its quantity is
    positive and its value is its quantity times its price. *)
Theorem run_trade_log_is_well_formed
  (sqrt : number -> number)
  (fetch : string -> string -> string -> option (list HistoricalPrice))
  (now : nat -> N) (cfg : SimulationConfig) (r : SimulationResult) :
  runSimulation sqrt fetch now cfg = Some r ->
  forall k trade,
    res_trades r !! k = Some trade ->
    trade_id trade = tradeId now (trade_date trade) (trade_ticker trade) k
    /\ In (trade_date trade) (dates (res_portfolio r))
    /\ In (trade_ticker trade) (tickers cfg)
    /\ gt (trade_quantity trade) zero = true
    /\ trade_value trade
       = mul (trade_quantity trade) (toNumber (trade_price trade)).
Proof.
  intros Hrun.
  apply runSimulation_unfold in Hrun as (loaded & Hload & ->).
  destruct (loadHistoricalData_keeps fetch _ _ Hload) as (Hcfg & Hp & Ht & Hn).
  cbn [res_trades res_portfolio].
  destruct (runDays_keeps now (getTradingDates loaded) 0 loaded) as (Hd & _).
  rewrite Hd, Hp. cbn [dates portfolio constructor app].
  assert (forall ds i s,
            config s = cfg ->
            clockReads s = length (trades s) ->
            forall done_,
              (forall k t, trades s !! k = Some t ->
                 trade_id t = tradeId now (trade_date t) (trade_ticker t) k
                 /\ In (trade_date t) (done_ ++ ds)
                 /\ In (trade_ticker t) (tickers cfg)
                 /\ gt (trade_quantity t) zero = true
                 /\ trade_value t = mul (trade_quantity t) (toNumber (trade_price t))) ->
              forall k t, trades (runDays now ds i s) !! k = Some t ->
                 trade_id t = tradeId now (trade_date t) (trade_ticker t) k
                 /\ In (trade_date t) (done_ ++ ds)
                 /\ In (trade_ticker t) (tickers cfg)
                 /\ gt (trade_quantity t) zero = true
                 /\ trade_value t = mul (trade_quantity t) (toNumber (trade_price t)))
    as Hgen.
  { induction ds as [|date rest IH]; intros i s Hc Hclock done_ Hold; [done|].
    cbn [runDays].
    replace (done_ ++ date :: rest) with ((done_ ++ [date]) ++ rest)
      by (by rewrite <- app_assoc).
    destruct (tradeLoop_log now date (dayPrices s date)
                (generateSignals s date i (dayPrices s date)) s
                (fun k t =>
                   trade_id t = tradeId now (trade_date t) (trade_ticker t) k
                   /\ In (trade_date t) ((done_ ++ [date]) ++ rest)
                   /\ In (trade_ticker t) (tickers cfg)
                   /\ gt (trade_quantity t) zero = true
                   /\ trade_value t
                      = mul (trade_quantity t) (toNumber (trade_price t))))
      as (Hclock' & HP & _).
    - exact Hclock.
    - intros k t Hk. rewrite <- app_assoc. by apply Hold.
    - intros signal k t Hin Hid Hdate Hticker Hprice Hq Hv.
      rewrite Hdate, Hticker. repeat split; try done.
      + rewrite !in_app_iff. simpl. auto.
      + rewrite <- Hc. by eapply generated_signal_ticker.
    - apply IH.
      + destruct (applyRiskControls_keeps date (simulateDay now date i s))
          as (_ & _ & _ & _ & _ & _ & -> & _).
        by destruct (simulateDay_keeps now date i s) as (_ & _ & -> & _).
      + destruct (applyRiskControls_keeps date (simulateDay now date i s))
          as (-> & -> & _).
        exact Hclock'.
      + intros k t.
        destruct (applyRiskControls_keeps date (simulateDay now date i s))
          as (-> & _).
        apply HP. }
  intros k trade Hk.
  apply (Hgen (getTradingDates loaded) 0 loaded Hcfg) with (done_ := []);
    [by rewrite Hn, Ht | | exact Hk].
  intros k' t. by rewrite Ht.
Qed.

Lemma run_trade_log_is_well_formed_witness :
  exists r trade,
    runSimulation Sample.sqrt64 Sample.crashSource Sample.clockA
      Sample.crashConfig = Some r
    /\ res_trades r !! 0 = Some trade
    /\ trade_id trade = "2023-01-02-AAPL-1700000000000"
    /\ trade_value trade = ofZ 900.
Proof.
  destruct (runSimulation Sample.sqrt64 Sample.crashSource Sample.clockA
              Sample.crashConfig) as [r|] eqn:Hrun;
    [|vm_compute in Hrun; discriminate Hrun].
  pose proof (run_trade_log_is_well_formed Sample.sqrt64 Sample.crashSource
                Sample.clockA Sample.crashConfig r Hrun 0) as Hlog.
  vm_compute in Hrun. injection Hrun as <-.
  eexists _, _. split; [reflexivity|]. split; [reflexivity|].
  destruct (Hlog _ eq_refl) as (Hid & _ & _ & _ & Hvalue).
  split; [rewrite Hid | rewrite Hvalue]; reflexivity.
Defined.

(** ** Sizing of a purchase *)


Lemma Qeq_bool_pos (p : Q) : (0 < p)%Q -> Qeq_bool p 0 = false.
Proof.
  intros Hp. destruct (Qeq_bool p 0) eqn:E; [|done].
  apply Qeq_bool_iff in E. rewrite E in Hp. by apply Qlt_irrefl in Hp.
Qed.




(** ** Solvency of the ledger *)













Lemma findIndex_find {A} (p : A -> bool) (l : list A) (i : nat) :
  findIndex p l = Some i -> exists x, find p l = Some x.
Proof.
  revert i. induction l as [|y r IH]; intros i; simpl; [done|].
  destruct (p y); [by eexists|].
  destruct (findIndex p r) as [j|]; [|done]. intros _. by apply (IH j).
Qed.

(** A ticker with a lookback window has a price today. *)
Lemma window_has_price (s : Simulator) (date ticker : string) (days : nat) :
  In ticker (tickers (config s)) ->
  getRecentPrices s ticker date days <> [] ->
  dayPrices s date !! ticker <> None.
Proof.
  intros Hticker Hwindow. unfold dayPrices. rewrite dayPrices_fold_lookup.
  destruct (in_dec _ _ _); [|done].
  unfold getRecentPrices in Hwindow.
  destruct (historicalData s !! ticker) as [data|]; [|done].
  simpl in Hwindow.
  destruct (findIndex _ data) as [idx|] eqn:Hidx; [|done].
  destruct (findIndex_find _ _ _ Hidx) as [bar ->]. done.
Qed.

Lemma sell_signal_has_price (s : Simulator) (date : string) (dayIndex : nat)
  (signal : Signal) :
  In signal (generateSignals s date dayIndex (dayPrices s date)) ->
  sig_action signal = SELL ->
  dayPrices s date !! sig_ticker signal <> None.
Proof.
  unfold generateSignals. intros Hin Hsell.
  destruct (String.eqb (strategy (config s)) "equal-weight").
  { destruct (dayIndex =? 0).
    - apply in_map_iff in Hin as (ticker & <- & _). discriminate Hsell.
    - destruct (dayIndex mod 20 =? 0); [|destruct Hin].
      apply in_flat_map in Hin as (ticker & Hticker & Hin).
      intros Hnone.
      assert (sig_ticker signal = ticker) as Hsame.
      { unfold rebalanceSignal in Hin. destruct (gt (abs _) _); [|destruct Hin].
        by destruct Hin as [<- | []]. }
      rewrite Hsame in Hnone.
      by rewrite (rebalance_needs_price s _ ticker Hnone) in Hin. }
  destruct (String.eqb (strategy (config s)) "momentum").
  { destruct (20 <=? dayIndex); [|destruct Hin].
    apply in_flat_map in Hin as (ticker & Hticker & Hin).
    unfold momentumSignal in Hin.
    destruct (20 <=? length (getRecentPrices s ticker date 20)) eqn:Hlen;
      [|destruct Hin].
    assert (sig_ticker signal = ticker) as ->.
    { destruct (_ && _); [by destruct Hin as [<- | []]|].
      destruct (_ && _); [|destruct Hin]. by destruct Hin as [<- | []]. }
    apply (window_has_price s date ticker 20 Hticker).
    intros Hnil. by rewrite Hnil in Hlen. }
  destruct (String.eqb (strategy (config s)) "mean-reversion");
    [|destruct Hin].
  destruct (20 <=? dayIndex); [|destruct Hin].
  apply in_flat_map in Hin as (ticker & Hticker & Hin).
  unfold meanReversionSignal in Hin.
  destruct (20 <=? length (getRecentPrices s ticker date 20)) eqn:Hlen;
    [|destruct Hin].
  assert (sig_ticker signal = ticker) as ->.
  { destruct (_ && _); [by destruct Hin as [<- | []]|].
    destruct (_ && _); [|destruct Hin]. by destruct Hin as [<- | []]. }
  apply (window_has_price s date ticker 20 Hticker).
  intros Hnil. by rewrite Hnil in Hlen.
Qed.







(** ** Drawdown *)







(** ** Win rate and beta *)

Lemma filter_length_bound {A} (p : A -> bool) (l : list A) :
  length (List.filter p l) <= length l.
Proof. induction l as [|x r IH]; simpl; [lia|]. destruct (p x); simpl; lia. Qed.

Lemma ratio_is_a_fraction (w n : nat) :
  w <= n -> 0 < n ->
  exists q, div (ofNat w) (ofNat n) = Fin q /\ (0 <= q)%Q /\ (q <= 1)%Q.
Proof.
  intros Hwn Hn. unfold div, ofNat, ofZ.
  assert (0 < inject_Z (Z.of_nat n))%Q as Hpos
    by (change 0%Q with (inject_Z 0); rewrite <- Zlt_Qlt; lia).
  assert (0 <= inject_Z (Z.of_nat w))%Q as Hw0
    by (change 0%Q with (inject_Z 0); rewrite <- Zle_Qle; lia).
  assert (inject_Z (Z.of_nat w) <= inject_Z (Z.of_nat n))%Q as Hle
    by (rewrite <- Zle_Qle; lia).
  rewrite (Qeq_bool_pos _ Hpos). eexists. split; [reflexivity|].
  rewrite Qred_correct. split.
  - apply Qle_shift_div_l; [done | lra].
  - apply Qle_shift_div_r; [done | lra].
Qed.

(** X15. The win rate is a finite fraction between 0 and 1, whatever the
    trade log; it is 0 when the log has no SELL trade. *)
Theorem win_rate_is_a_fraction (s : Simulator) :
  (exists q, calculateWinRate s = Fin q /\ (0 <= q)%Q /\ (q <= 1)%Q)
  /\ (List.filter
        (fun t => match trade_action t with SELL => true | BUY => false end)
        (trades s) = [] ->
      calculateWinRate s = zero).
Proof.
  unfold calculateWinRate. cbv zeta.
  set (sells := List.filter _ (trades s)).
  assert (exists q, zero = Fin q /\ (0 <= q)%Q /\ (q <= 1)%Q) as Hzero
    by (exists 0%Q; split; [reflexivity | lra]).
  split.
  - destruct (length (trades s) =? 0); [exact Hzero|].
    destruct (0 <? length sells) eqn:Hsome; [|exact Hzero].
    apply Nat.ltb_lt in Hsome.
    apply ratio_is_a_fraction; [apply filter_length_bound | done].
  - intros Hnone. rewrite Hnone. simpl. by destruct (length (trades s) =? 0).
Qed.




(** ** Execution prices *)

Lemma dayPrices_is_todays_close (s : Simulator) (date ticker : string)
  (c : number) :
  dayPrices s date !! ticker = Some c ->
  exists data bar,
    historicalData s !! ticker = Some data
    /\ In bar data /\ bar_date bar = date /\ bar_close bar = c.
Proof.
  unfold dayPrices. rewrite dayPrices_fold_lookup.
  destruct (in_dec _ _ _); [|done].
  destruct (historicalData s !! ticker) as [data|]; [|done].
  destruct (find _ data) as [bar|] eqn:Hfind; [|done].
  simpl. intros [= <-]. apply find_some in Hfind as [Hin Hdate].
  apply String.eqb_eq in Hdate. eauto 6.
Qed.

Lemma executeTrade_priced (now : nat -> N) (signal : Signal) (date : string)
  (price : option number) (s : Simulator) :
  (sig_action signal = SELL -> price <> None) ->
  trades (executeTrade now signal date price s) = trades s
  \/ exists trade c,
       trades (executeTrade now signal date price s) = trades s ++ [trade]
       /\ trade_date trade = date
       /\ trade_ticker trade = sig_ticker signal
       /\ price = Some c
       /\ trade_price trade = Some c.
Proof.
  intros Hsell. unfold executeTrade.
  destruct (sig_action signal).
  - destruct price as [c|]; [|left; by rewrite div_NaN_r].
    destruct (_ && _); [|by left].
    right. eexists _, c. simpl. done.
  - destruct price as [c|]; [|by destruct (Hsell eq_refl)].
    destruct (gt _ _); [|by left].
    right. eexists _, c. simpl. done.
Qed.

Lemma simulateDay_priced (now : nat -> N) (date : string) (dayIndex : nat)
  (s : Simulator) (Q : Trade -> Prop) :
  (forall trade c,
      trade_date trade = date ->
      dayPrices s date !! trade_ticker trade = Some c ->
      trade_price trade = Some c ->
      Q trade) ->
  Forall Q (trades s) ->
  Forall Q (trades (simulateDay now date dayIndex s)).
Proof.
  intros Hnew Hold. unfold simulateDay. cbv zeta.
  change (trades (updatePortfolioValue date (dayPrices s date) ?x))
    with (trades x).
  pose proof (sell_signal_has_price s date dayIndex) as Hsells.
  revert Hsells Hnew.
  generalize (generateSignals s date dayIndex (dayPrices s date)) as signals.
  generalize (dayPrices s date) as prices.
  intros prices signals Hsells Hnew. revert s Hold.
  induction signals as [|signal rest IH]; intros s Hold; simpl; [done|].
  apply IH.
  - intros sg Hin. apply Hsells. by right.
  - destruct (executeTrade_priced now signal date (prices !! sig_ticker signal) s)
      as [-> | (trade & c & -> & Hdate & Hticker & Hprice & Htrade)];
      [apply Hsells; by left | done |].
    apply Forall_app. split; [done|]. constructor; [|done].
    apply (Hnew trade c); [done | by rewrite Hticker | done].
Qed.

(** X17. Every trade of a completed run was executed at a real close: the
    price source has, for the trade's ticker, a bar dated the trade's date,
    and the trade's price is that bar's close.  No trade is recorded at an
    undefined price. *)
Theorem run_trades_execute_at_the_close
  (sqrt : number -> number)
  (fetch : string -> string -> string -> option (list HistoricalPrice))
  (now : nat -> N) (cfg : SimulationConfig) (r : SimulationResult)
  (trade : Trade) :
  runSimulation sqrt fetch now cfg = Some r ->
  In trade (res_trades r) ->
  exists data bar,
    fetch (trade_ticker trade) (startDate cfg) (endDate cfg) = Some data
    /\ In bar data
    /\ bar_date bar = trade_date trade
    /\ trade_price trade = Some (bar_close bar).
Proof.
  intros Hrun Hin.
  apply runSimulation_unfold in Hrun as (loaded & Hload & ->).
  destruct (loadHistoricalData_keeps fetch _ _ Hload) as (_ & _ & Ht & _).
  cbn [res_trades] in Hin.
  set (Q := fun t : Trade =>
              exists data bar,
                historicalData loaded !! trade_ticker t = Some data
                /\ In bar data
                /\ bar_date bar = trade_date t
                /\ trade_price t = Some (bar_close bar)).
  assert (forall ds i s,
            historicalData s = historicalData loaded ->
            Forall Q (trades s) ->
            Forall Q (trades (runDays now ds i s))) as Hgen.
  { induction ds as [|date rest IH]; intros i s Hhd Hold; [done|].
    cbn [runDays]. apply IH.
    - destruct (applyRiskControls_keeps date (simulateDay now date i s))
        as (_ & _ & _ & _ & _ & _ & _ & -> & _).
      by destruct (simulateDay_keeps now date i s) as (_ & _ & _ & -> & _).
    - destruct (applyRiskControls_keeps date (simulateDay now date i s))
        as (-> & _).
      apply simulateDay_priced; [|done].
      intros t c Hdate Hprice Htrade.
      apply dayPrices_is_todays_close in Hprice
        as (data & bar & Hdata & Hbar & Hbd & <-).
      exists data, bar. by rewrite <- Hhd, Hdate. }
  assert (Q trade) as (data & bar & Hdata & Hbar & Hdate & Hprice).
  { eapply Forall_forall; [apply (Hgen (getTradingDates loaded) 0 loaded)|].
    - reflexivity.
    - rewrite Ht. constructor.
    - by apply list_elem_of_In. }
  exists data, bar. split; [|done].
  unfold loadHistoricalData in Hload.
  destruct (loadSeries _ _ _ _ _) as [hd|] eqn:Hseries; [|discriminate].
  injection Hload as <-. cbn [historicalData config constructor] in *.
  destruct (loadSeries_lookup _ _ _ _ _ _ Hseries) as [Hknown Hother].
  destruct (in_dec String.string_dec (trade_ticker trade) (tickers cfg))
    as [Hticker | Hticker].
  - by rewrite <- (Hknown _ Hticker).
  - by rewrite (Hother _ Hticker) in Hdata.
Qed.

Lemma run_trades_execute_at_the_close_witness :
  exists r trade,
    runSimulation Sample.sqrt64 Sample.crashSource Sample.clockA
      Sample.crashConfig = Some r
    /\ In trade (res_trades r)
    /\ exists bar,
         In bar Sample.crashBars
         /\ bar_date bar = trade_date trade
         /\ trade_price trade = Some (bar_close bar).
Proof.
  destruct (runSimulation Sample.sqrt64 Sample.crashSource Sample.clockA
              Sample.crashConfig) as [r|] eqn:Hrun;
    [|vm_compute in Hrun; discriminate Hrun].
  pose proof (run_trades_execute_at_the_close Sample.sqrt64 Sample.crashSource
                Sample.clockA Sample.crashConfig r) as Hclose.
  vm_compute in Hrun. injection Hrun as <-.
  eexists _, _. split; [reflexivity|]. split; [by left|].
  destruct (Hclose _ eq_refl (or_introl eq_refl))
    as (data & bar & Hdata & Hbar & Hdate & Hprice).
  vm_compute in Hdata. injection Hdata as <-.
  exists bar. done.
Defined.

(** ** Buying and selling back *)





Lemma win_rate_is_a_fraction_witness :
  List.filter
    (fun t => match trade_action t with SELL => true | BUY => false end)
    (trades Sample.marked) = []
  /\ calculateWinRate Sample.marked = zero.
Proof.
  split; [reflexivity|].
  apply (win_rate_is_a_fraction Sample.marked). reflexivity.
Defined.
